(** * Smart Image Cropper: the App component of [src/App.tsx]

    A shallow embedding of the component's handlers and of the crop
    geometry they compute, together with the properties the design
    document states about them.

    Conventions.
    - A JavaScript [number] is an exact rational ([Q]); results are compared
      with [==].  Division by zero (which JavaScript answers with [Infinity]
      or [NaN]) is kept out of the theorems by asking images to have positive
      dimensions.
    - The component's [useState] cells are the fields of [State]; a handler
      is a function on [State].
    - Asynchronous handlers are cut at their [await] / callback: the part
      before it returns the request it issues, the part after it is a handler
      of its own that takes the outcome.
    - [makeAspectCrop] and [centerCrop] belong to the crop-interaction
      library, not to this repository: the handlers are written against the
      interface [CropLibrary]. *)

From Stdlib Require Import QArith Qminmax Lqa Lia List String Bool.
Import ListNotations.

Local Open Scope string_scope.
Local Open Scope Q_scope.

(** ** Data *)

(** [unit: '%' | 'px'] of a crop rectangle. *)
Inductive CropUnit : Type := Percent | Px.

(** [Crop] of the crop library ([PercentCrop] when [unit] is ['%'],
    [PixelCrop] when it is ['px']). *)
Module Crop.
Record t : Type := mk { unit : CropUnit; x : Q; y : Q; width : Q; height : Q }.

(** Field-wise equality of numbers. *)
Definition eq (c d : t) : Prop :=
  unit c = unit d /\ x c == x d /\ y c == y d /\
  width c == width d /\ height c == height d.
End Crop.

(** [face.box] of a detection: pixel coordinates of the image. *)
Module Box.
Record t : Type := mk { x : Q; y : Q; width : Q; height : Q }.
End Box.

(** The fields of [HTMLImageElement] the component reads: [width] and
    [height] are the rendered size, [naturalWidth] and [naturalHeight] the
    size of the file. *)
Module Img.
Record t : Type :=
  mk { width : Q; height : Q; naturalWidth : Q; naturalHeight : Q }.
End Img.

(** [File]: the declared content type and what [readAsDataURL] yields
    ([reader.result], possibly [null]). *)
Module File.
Record t : Type := mk { type : string; result : option string }.
End File.

(** The three ratios of the toggle buttons. *)
Inductive AspectChoice : Type := Square | Portrait | Wide.

Definition ratio (a : AspectChoice) : Q :=
  match a with
  | Square => 1
  | Portrait => 4 / 5
  | Wide => 16 / 9
  end.

(** ** Face-guided geometry ([onImageLoad], lines 109-138) *)

(** The rectangle handed to [makeAspectCrop]: the 90% default, or the
    rectangle around the first detection. *)
Definition faceCrop (aspect width height : Q) (detections : list Box.t) : Crop.t :=
  let cropX := 5 in
  let cropY := 5 in
  let cropWidth := 90 in
  let cropHeight := 90 in
  match detections with
  | [] => Crop.mk Percent cropX cropY cropWidth cropHeight
  | face :: _ =>
      let faceWidth := (Box.width face / width) * 100 in
      let faceHeight := (Box.height face / height) * 100 in
      let '(cropWidth, cropHeight) :=
        if Qeq_bool aspect 1 then
          let s := Qmax faceWidth faceHeight * 1.5 in (s, s)
        else if Qeq_bool aspect (4 / 5) then
          let cropWidth := faceWidth * 1.5 in
          (cropWidth, cropWidth * (5 / 4))
        else if Qeq_bool aspect (16 / 9) then
          let cropHeight := faceHeight * 1.5 in
          (cropHeight * (16 / 9), cropHeight)
        else (cropWidth, cropHeight) in
      let cropX := ((Box.x face / width) * 100) - ((cropWidth - faceWidth) / 2) in
      let cropY := ((Box.y face / height) * 100) - ((cropHeight - faceHeight) / 2) in
      let cropX := Qmax 0 (Qmin cropX (100 - cropWidth)) in
      let cropY := Qmax 0 (Qmin cropY (100 - cropHeight)) in
      Crop.mk Percent cropX cropY cropWidth cropHeight
  end.

(** A face box lies inside a [width] x [height] image. *)
Definition inBounds (width height : Q) (b : Box.t) : Prop :=
  0 <= Box.x b /\ 0 <= Box.y b /\ 0 <= Box.width b /\ 0 <= Box.height b /\
  Box.x b + Box.width b <= width /\ Box.y b + Box.height b <= height.

(** The rectangle stays inside the 0..100 square. *)
Definition withinImage (c : Crop.t) : Prop :=
  0 <= Crop.x c /\ 0 <= Crop.y c /\
  Crop.x c + Crop.width c <= 100 /\ Crop.y c + Crop.height c <= 100.

(** ** The crop library *)

(** The two functions the component imports from the crop-interaction
    library.  Both take the rectangle and the container's width and height;
    [makeAspectCrop] also takes the ratio. *)
Class CropLibrary : Type := {
  makeAspectCrop : Crop.t -> Q -> Q -> Q -> Crop.t;
  centerCrop : Crop.t -> Q -> Q -> Crop.t
}.

(** Size in pixels of a rectangle laid over a [W] x [H] container. *)
Definition pixelWidth (W : Q) (c : Crop.t) : Q :=
  match Crop.unit c with
  | Percent => Crop.width c * W / 100
  | Px => Crop.width c
  end.

Definition pixelHeight (H : Q) (c : Crop.t) : Q :=
  match Crop.unit c with
  | Percent => Crop.height c * H / 100
  | Px => Crop.height c
  end.

(** A rectangle has width : height = [a] on a [W] x [H] container. *)
Definition hasAspect (a W H : Q) (c : Crop.t) : Prop :=
  pixelWidth W c == a * pixelHeight H c.

(** What the design asks of the library: [makeAspectCrop] answers with a
    rectangle of the requested ratio, in the unit it was given, and
    [centerCrop] moves a rectangle without resizing it. *)
Definition makesAspect (L : CropLibrary) : Prop :=
  forall c a W H, 0 < a -> 0 < W -> 0 < H -> Crop.unit c = Percent ->
    Crop.unit (makeAspectCrop c a W H) = Percent /\
    hasAspect a W H (makeAspectCrop c a W H).

Definition centerKeepsSize (L : CropLibrary) : Prop :=
  forall c W H, 0 < W -> 0 < H ->
    Crop.unit (centerCrop c W H) = Crop.unit c /\
    Crop.width (centerCrop c W H) == Crop.width c /\
    Crop.height (centerCrop c W H) == Crop.height c.

(** What keeps the installed rectangle inside the image: given a percent
    rectangle that starts inside the container and has no negative side,
    [makeAspectCrop] answers with a percent rectangle no larger than the
    container, and [centerCrop] puts a percent rectangle in the middle of the
    container. *)
Definition makesFit (L : CropLibrary) : Prop :=
  forall c a W H, 0 < a -> 0 < W -> 0 < H -> Crop.unit c = Percent ->
    0 <= Crop.x c <= 100 -> 0 <= Crop.y c <= 100 ->
    0 <= Crop.width c -> 0 <= Crop.height c ->
    Crop.unit (makeAspectCrop c a W H) = Percent /\
    0 <= Crop.width (makeAspectCrop c a W H) <= 100 /\
    0 <= Crop.height (makeAspectCrop c a W H) <= 100.

Definition centers (L : CropLibrary) : Prop :=
  forall c W H, 0 < W -> 0 < H -> Crop.unit c = Percent ->
    Crop.unit (centerCrop c W H) = Percent /\
    Crop.width (centerCrop c W H) == Crop.width c /\
    Crop.height (centerCrop c W H) == Crop.height c /\
    Crop.x (centerCrop c W H) == (100 - Crop.width c) / 2 /\
    Crop.y (centerCrop c W H) == (100 - Crop.height c) / 2.

(** ** Component state *)

Record State : Type := mkState {
  imgSrc : string;
  crop : option Crop.t;
  aspect : Q;
  completedCrop : option Crop.t;
  isLoading : bool;
  isDragging : bool
}.

(** The arguments of the [useState] calls. *)
Definition initialState : State :=
  mkState EmptyString None 1 None false false.

Definition setImgSrc (v : string) (st : State) : State :=
  mkState v (crop st) (aspect st) (completedCrop st) (isLoading st) (isDragging st).

Definition setCrop (v : option Crop.t) (st : State) : State :=
  mkState (imgSrc st) v (aspect st) (completedCrop st) (isLoading st) (isDragging st).

Definition setAspect (v : Q) (st : State) : State :=
  mkState (imgSrc st) (crop st) v (completedCrop st) (isLoading st) (isDragging st).

Definition setCompletedCrop (v : option Crop.t) (st : State) : State :=
  mkState (imgSrc st) (crop st) (aspect st) v (isLoading st) (isDragging st).

Definition setIsLoading (v : bool) (st : State) : State :=
  mkState (imgSrc st) (crop st) (aspect st) (completedCrop st) v (isDragging st).

Definition setIsDragging (v : bool) (st : State) : State :=
  mkState (imgSrc st) (crop st) (aspect st) (completedCrop st) (isLoading st) v.

(** ** Errors: [try] / [catch] *)

(** A computation either throws or returns. *)
Inductive Result (A : Type) : Type :=
| Throw (error : string)
| Return (a : A).

Arguments Throw {A} error.
Arguments Return {A} a.

Definition bind {A B : Type} (r : Result A) (k : A -> Result B) : Result B :=
  match r with
  | Throw e => Throw e
  | Return a => k a
  end.

Definition tryCatch {A : Type} (body : Result A) (handler : string -> Result A)
  : Result A :=
  match body with
  | Throw e => handler e
  | Return a => Return a
  end.

Notation "x <- r ;; k" := (bind r (fun x => k))
  (at level 61, r at next level, right associativity).

(** ** Requests to the browser *)

(** The variables the suspended [onImageLoad] holds across its [await]:
    [width] and [height] read from the event target, and the [aspect] of the
    render that created the callback. *)
Module Suspended.
Record t : Type := mk { width : Q; height : Q; aspect : Q }.
End Suspended.

(** What a handler leaves running when it returns. *)
Inductive Request : Type :=
| ReadAsDataURL (file : File.t)
| DetectAllFaces (k : Suspended.t).

(** How [faceapi.detectAllFaces] settles. *)
Inductive Detection : Type :=
| Resolved (detections : list Box.t)
| Rejected (error : string).

Definition await (d : Detection) : Result (list Box.t) :=
  match d with
  | Resolved detections => Return detections
  | Rejected e => Throw e
  end.

(** ** Handlers *)

(** [file.type.startsWith('image/')]. *)
Definition isImage (file : File.t) : bool :=
  prefix "image/" (File.type file).

(** [handleFile]: an image file is handed to a [FileReader]; any other file
    falls through the [if]. *)
Definition handleFile (file : File.t) (st : State) : State * list Request :=
  if isImage file then (st, [ReadAsDataURL file]) else (st, []).

(** The reader's ['load'] listener:
    [setImgSrc(reader.result?.toString() || '')]. *)
Definition onReaderLoad (file : File.t) (st : State) : State :=
  match File.result file with
  | Some url => setImgSrc url st
  | None => setImgSrc EmptyString st
  end.

(** [onSelectFile]; [files] is [e.target.files], which may be [null]. *)
Definition onSelectFile (files : option (list File.t)) (st : State)
  : State * list Request :=
  match files with
  | Some (file :: _) => handleFile file st
  | _ => (st, [])
  end.

Definition handleDragEnter (st : State) : State := setIsDragging true st.

Definition handleDragLeave (st : State) : State := setIsDragging false st.

Definition handleDragOver (st : State) : State := st.

(** [handleDrop]; [files] is [Array.from(e.dataTransfer.files)]. *)
Definition handleDrop (files : list File.t) (st : State) : State * list Request :=
  let st := setIsDragging false st in
  match files with
  | file :: _ => handleFile file st
  | [] => (st, [])
  end.

Definition handleCancel (st : State) : State :=
  setCompletedCrop None (setCrop None (setImgSrc EmptyString st)).

(** The callbacks given to the crop surface. *)
Definition onChange (percentCrop : Crop.t) (st : State) : State :=
  setCrop (Some percentCrop) st.

Definition onComplete (c : Crop.t) (st : State) : State :=
  setCompletedCrop (Some c) st.

Section WithCropLibrary.

Context {L : CropLibrary}.

(** The effect that depends on [aspect] (lines 21-38); [imgRef] is
    [imgRef.current]. *)
Definition aspectEffect (imgRef : option Img.t) (st : State) : State :=
  match imgRef with
  | Some img =>
      let width := Img.width img in
      let height := Img.height img in
      let newCrop :=
        makeAspectCrop (Crop.mk Percent 5 5 90 90) (aspect st) width height in
      setCrop (Some (centerCrop newCrop width height)) st
  | None => st
  end.

(** A click on a ratio button: [setAspect(a)], after which the effect
    runs if [aspect] did change. *)
Definition onClickAspect (imgRef : option Img.t) (a : Q) (st : State) : State :=
  if Qeq_bool (aspect st) a then st
  else aspectEffect imgRef (setAspect a st).

(** [onImageLoad] up to its [await]. *)
Definition onImageLoad (img : Img.t) (st : State) : State * list Request :=
  let width := Img.width img in
  let height := Img.height img in
  (setIsLoading true st, [DetectAllFaces (Suspended.mk width height (aspect st))]).

(** [onImageLoad] from its [await] on, run on the state of that time. *)
Definition onImageLoad_resume (k : Suspended.t) (d : Detection) (st : State)
  : Result State :=
  let width := Suspended.width k in
  let height := Suspended.height k in
  let aspect := Suspended.aspect k in
  st <- tryCatch
          (detections <- await d ;;
           let crop := makeAspectCrop (faceCrop aspect width height detections)
                                      aspect width height in
           let centeredCrop := centerCrop crop width height in
           Return (setCrop (Some centeredCrop) st))
          (fun error =>
           let crop := makeAspectCrop (Crop.mk Percent 5 5 90 90)
                                      aspect width height in
           let centeredCrop := centerCrop crop width height in
           Return (setCrop (Some centeredCrop) st)) ;;
  Return (setIsLoading false st).

End WithCropLibrary.

(** ** Export ([downloadCroppedImage]) *)

(** The arguments of [ctx.drawImage(image, sx, sy, sWidth, sHeight, dx, dy,
    dWidth, dHeight)]. *)
Record DrawImage : Type := mkDrawImage {
  sx : Q; sy : Q; sWidth : Q; sHeight : Q;
  dx : Q; dy : Q; dWidth : Q; dHeight : Q
}.

(** The canvas as [downloadCroppedImage] leaves it when it hands it to
    [toBlob]: [canvasWidth] and [canvasHeight] are the values assigned to
    [canvas.width] and [canvas.height], [mimeType] is the type asked of
    [toBlob], and [download] is the name the callback of [toBlob] gives the
    file if it is handed a blob (see [toBlobCallback]). *)
Record CanvasExport : Type := mkExport {
  canvasWidth : Q;
  canvasHeight : Q;
  drawn : DrawImage;
  download : string;
  mimeType : string
}.

(** [ctx] tells whether [canvas.getContext('2d')] gave a context. *)
Definition downloadCroppedImage (imgRef : option Img.t) (ctx : bool) (st : State)
  : option CanvasExport :=
  match imgRef, completedCrop st with
  | Some img, Some completedCrop =>
      if negb ctx then None
      else
        let scaleX := Img.naturalWidth img / Img.width img in
        let scaleY := Img.naturalHeight img / Img.height img in
        Some (mkExport
                (Crop.width completedCrop)
                (Crop.height completedCrop)
                (mkDrawImage
                   (Crop.x completedCrop * scaleX)
                   (Crop.y completedCrop * scaleY)
                   (Crop.width completedCrop * scaleX)
                   (Crop.height completedCrop * scaleY)
                   0 0
                   (Crop.width completedCrop)
                   (Crop.height completedCrop))
                "cropped-image.jpg"
                "image/jpeg")
  | _, _ => None
  end.

(** The callback given to [canvas.toBlob] (lines 202-210): without a blob
    it returns at once; with one it offers the file under its name.  [blob]
    tells whether the canvas yielded a blob. *)
Definition toBlobCallback (e : CanvasExport) (blob : bool) : option string :=
  if negb blob then None else Some (download e).

(** ** A crop library to run with *)

(** An instance of [CropLibrary] that follows the documented behaviour of
    the crop-interaction library's [makeAspectCrop] and [centerCrop]: both
    work in pixels and answer in the unit of their argument.  The theorems
    below hold for every instance; this one serves to run the handlers on
    concrete inputs. *)
Module ReactImageCrop.

Definition convertToPercentCrop (c : Crop.t) (containerWidth containerHeight : Q)
  : Crop.t :=
  match Crop.unit c with
  | Percent => c
  | Px =>
      Crop.mk Percent
              (Crop.x c / containerWidth * 100)
              (Crop.y c / containerHeight * 100)
              (Crop.width c / containerWidth * 100)
              (Crop.height c / containerHeight * 100)
  end.

Definition convertToPixelCrop (c : Crop.t) (containerWidth containerHeight : Q)
  : Crop.t :=
  match Crop.unit c with
  | Px => c
  | Percent =>
      Crop.mk Px
              (Crop.x c * containerWidth / 100)
              (Crop.y c * containerHeight / 100)
              (Crop.width c * containerWidth / 100)
              (Crop.height c * containerHeight / 100)
  end.

(** A number that is not zero is truthy. *)
Definition truthy (q : Q) : bool := negb (Qeq_bool q 0).

(** [a > b]. *)
Definition Qgtb (a b : Q) : bool := negb (Qle_bool a b).

Definition makeAspectCrop (c : Crop.t) (aspect containerWidth containerHeight : Q)
  : Crop.t :=
  let p := convertToPixelCrop c containerWidth containerHeight in
  let '(w, h) := (Crop.width p, Crop.height p) in
  let h := if truthy (Crop.width c) then w / aspect else h in
  let w := if truthy (Crop.height c) then h * aspect else w in
  let '(w, h) :=
    if Qgtb (Crop.y p + h) containerHeight
    then ((containerHeight - Crop.y p) * aspect, containerHeight - Crop.y p)
    else (w, h) in
  let '(w, h) :=
    if Qgtb (Crop.x p + w) containerWidth
    then (containerWidth - Crop.x p, (containerWidth - Crop.x p) / aspect)
    else (w, h) in
  let p := Crop.mk Px (Crop.x p) (Crop.y p) w h in
  match Crop.unit c with
  | Percent => convertToPercentCrop p containerWidth containerHeight
  | Px => p
  end.

Definition centerCrop (c : Crop.t) (containerWidth containerHeight : Q) : Crop.t :=
  let p := convertToPixelCrop c containerWidth containerHeight in
  let p := Crop.mk Px
                   ((containerWidth - Crop.width p) / 2)
                   ((containerHeight - Crop.height p) / 2)
                   (Crop.width p) (Crop.height p) in
  match Crop.unit c with
  | Percent => convertToPercentCrop p containerWidth containerHeight
  | Px => p
  end.

Definition library : CropLibrary :=
  Build_CropLibrary makeAspectCrop centerCrop.

End ReactImageCrop.

(** ** Sessions without overlap *)

(** The component together with the image element it renders: [imgRef] is
    [imgRef.current], present exactly while the [img] is mounted. *)
Record World : Type := mkWorld {
  state : State;
  imgRef : option Img.t
}.

(** What the user does.  An operation runs to its end before the next one
    starts: a file that is taken in is read, rendered as [img], and its
    detection settles as [d]. *)
Inductive Op : Type :=
| Pick (files : option (list File.t)) (img : Img.t) (d : Detection)
| DropFiles (files : list File.t) (img : Img.t) (d : Detection)
| DragEnter
| DragLeave
| DragOver
| ClickAspect (a : AspectChoice)
| Change (percentCrop : Crop.t)
| Complete (c : Crop.t)
| Cancel.

Section Session.

Context {L : CropLibrary}.

(** The requests of an intake, served at once: the reader's ['load'], then,
    if there is a source to show ([imgSrc && ...], line 293), the image's
    [onLoad] and the settling of its detection.  These are the component's
    own handlers; what the crop surface calls back in turn ([onChange],
    [onComplete]) are the operations [Change] and [Complete], so [serve]
    says nothing on the committed crop the surface may report next. *)
Definition serve (res : State * list Request) (img : Img.t) (d : Detection)
  (imgRef : option Img.t) : World :=
  match res with
  | (st, ReadAsDataURL file :: _) =>
      let st := onReaderLoad file st in
      match imgSrc st with
      | EmptyString => mkWorld st None
      | String _ _ =>
          match onImageLoad img st with
          | (st, DetectAllFaces k :: _) =>
              match onImageLoad_resume k d st with
              | Return st => mkWorld st (Some img)
              | Throw _ => mkWorld st (Some img)
              end
          | (st, _) => mkWorld st (Some img)
          end
      end
  | (st, _) => mkWorld st imgRef
  end.

Definition run (op : Op) (w : World) : World :=
  let st := state w in
  match op with
  | Pick files img d => serve (onSelectFile files st) img d (imgRef w)
  | DropFiles files img d => serve (handleDrop files st) img d (imgRef w)
  | DragEnter => mkWorld (handleDragEnter st) (imgRef w)
  | DragLeave => mkWorld (handleDragLeave st) (imgRef w)
  | DragOver => mkWorld (handleDragOver st) (imgRef w)
  | ClickAspect a => mkWorld (onClickAspect (imgRef w) (ratio a) st) (imgRef w)
  | Change c => mkWorld (onChange c st) (imgRef w)
  | Complete c => mkWorld (onComplete c st) (imgRef w)
  | Cancel => mkWorld (handleCancel st) None
  end.

(** When an operation can happen: the upload area exists only without a
    source ([!imgSrc && ...], line 221) and an image renders with a positive
    size; the crop surface, which is given [aspect], reports rectangles of
    that ratio on the image it overlays. *)
Definition enabled (op : Op) (w : World) : Prop :=
  match op with
  | Pick _ img _ | DropFiles _ img _ =>
      imgSrc (state w) = EmptyString /\ 0 < Img.width img /\ 0 < Img.height img
  | Change c =>
      exists img, imgRef w = Some img /\
                  hasAspect (aspect (state w)) (Img.width img) (Img.height img) c
  | _ => True
  end.

Inductive reachable : World -> Prop :=
| reachable_initial : reachable (mkWorld initialState None)
| reachable_run (op : Op) (w : World) :
    reachable w -> enabled op w -> reachable (run op w).

(** The crop rectangle, when there is one, lies over a mounted image of
    positive size and has the active ratio on it. *)
Definition cropHasAspect (w : World) : Prop :=
  forall c, crop (state w) = Some c ->
    exists img, imgRef w = Some img /\
                0 < Img.width img /\ 0 < Img.height img /\
                hasAspect (aspect (state w)) (Img.width img) (Img.height img) c.

(** What holds of every reachable world. *)
Definition consistent (w : World) : Prop :=
  0 < aspect (state w) /\
  (imgSrc (state w) = EmptyString ->
   crop (state w) = None /\ imgRef w = None) /\
  (forall img, imgRef w = Some img ->
               0 < Img.width img /\ 0 < Img.height img) /\
  cropHasAspect w.

End Session.

(** ** Start-up ([loadFaceDetectionModel], lines 40-47) *)

(** The two networks of the detector library. *)
Inductive Net : Type := TinyFaceDetector | FaceLandmark68Net.

(** What the start-up does to the outside: it asks for a network at an
    address, and it writes to the console. *)
Inductive Event : Type :=
| LoadFromUri (net : Net) (uri : string)
| ConsoleError (message error : string).

(** A computation that leaves events behind and throws or returns. *)
Definition Logged (A : Type) : Type := list Event -> list Event * Result A.

Definition retL {A : Type} (a : A) : Logged A :=
  fun log => (log, Return a).

Definition bindL {A B : Type} (m : Logged A) (k : A -> Logged B) : Logged B :=
  fun log =>
    match m log with
    | (log, Return a) => k a log
    | (log, Throw e) => (log, Throw e)
    end.

Definition tryCatchL {A : Type} (body : Logged A) (handler : string -> Logged A)
  : Logged A :=
  fun log =>
    match body log with
    | (log, Throw e) => handler e log
    | (log, Return a) => (log, Return a)
    end.

(** [await net.loadFromUri(uri)]; [settles] tells how the load of each
    network ends. *)
Definition loadFromUri (settles : Net -> Result unit) (net : Net) (uri : string)
  : Logged unit :=
  fun log => ((log ++ [LoadFromUri net uri])%list, settles net).

Definition consoleError (message error : string) : Logged unit :=
  fun log => ((log ++ [ConsoleError message error])%list, Return tt).

Definition loadFaceDetectionModel (settles : Net -> Result unit) : Logged unit :=
  tryCatchL
    (bindL (loadFromUri settles TinyFaceDetector "/models") (fun _ =>
     loadFromUri settles FaceLandmark68Net "/models"))
    (fun error => consoleError "Error loading face detection model:" error).

(** ** What is rendered (lines 213-343) *)

(** The parts of the page that depend on the state. *)
Record View : Type := mkView {
  uploadArea : bool;
  uploadHighlighted : bool;
  aspectControls : bool;
  highlighted : AspectChoice -> bool;
  cropArea : bool;
  loadingOverlay : bool;
  cancelButton : bool;
  downloadButton : bool
}.

(** A string is truthy when it is not empty. *)
Definition truthyString (s : string) : bool :=
  match s with
  | EmptyString => false
  | String _ _ => true
  end.

(** An optional value is truthy when it is there. *)
Definition isSome {A : Type} (o : option A) : bool :=
  match o with
  | Some _ => true
  | None => false
  end.

Definition render (st : State) : View :=
  let shown := truthyString (imgSrc st) in
  mkView
    (negb shown)
    (negb shown && isDragging st)
    shown
    (fun a => shown && Qeq_bool (aspect st) (ratio a))
    shown
    (shown && isLoading st)
    shown
    (shown && isSome (completedCrop st)).

(** What holds of every reachable world whatever the library computes:
    no detection is left in flight, without a source there is neither a crop
    rectangle nor an image element, a crop rectangle lies over an image
    element, and the ratio is one of the three choices. *)
Definition settled (w : World) : Prop :=
  isLoading (state w) = false /\
  (imgSrc (state w) = EmptyString ->
   crop (state w) = None /\ imgRef w = None) /\
  (forall c, crop (state w) = Some c -> exists img, imgRef w = Some img) /\
  (exists a, aspect (state w) = ratio a).

(** ** Inputs of the runs, and the design document's wording *)

(** An image shown at 200 x 200 from a 400 x 400 file, and the state in
    which it has just been read. *)
Definition img200 : Img.t := Img.mk 200 200 400 400.

Definition loaded : State :=
  setImgSrc "data:image/png;base64,iVBORw0KGgo=" initialState.

(** The recomputation in the words of the design document: the default
    rectangle adjusted against the natural size of the file. *)
Definition recomputedAgainstNatural {L : CropLibrary} (img : Img.t) (a : Q)
  : Crop.t :=
  centerCrop
    (makeAspectCrop (Crop.mk Percent 5 5 90 90) a
       (Img.naturalWidth img) (Img.naturalHeight img))
    (Img.naturalWidth img) (Img.naturalHeight img).

(** A text file and an image file. *)
Definition textFile : File.t :=
  File.mk "text/plain" (Some "data:text/plain;base64,aGVsbG8=").

Definition pngFile : File.t :=
  File.mk "image/png" (Some "data:image/png;base64,iVBORw0KGgo=").

(** A session: an image file is picked, rendered as [img200] with one face
    detected, and 16:9 is chosen. *)
Definition wideSession : World :=
  run (L := ReactImageCrop.library) (ClickAspect Wide)
    (run (L := ReactImageCrop.library)
       (Pick (Some [pngFile]) img200 (Resolved [Box.mk 150 120 100 100]))
       (mkWorld initialState None)).

(** A 1000 x 667 file rendered 600 pixels high, hence 900 wide. *)
Definition img900 : Img.t := Img.mk 900 600 1000 667.

(** A state in which cancel is offered: an image is shown, 16:9 is chosen and
    a detection is in flight. *)
Definition detecting : State :=
  setIsLoading true (setAspect (ratio Wide) loaded).

(** The sizing rule in the words of the design document: one side is 1.5
    times the larger of the face's percentages, the other follows from the
    ratio. *)
Definition sizedByLargerSide (a : AspectChoice) (W H : Q) (face : Box.t)
  (c : Crop.t) : Prop :=
  let faceWidth := Box.width face / W * 100 in
  let faceHeight := Box.height face / H * 100 in
  (Crop.width c == Qmax faceWidth faceHeight * 1.5 \/
   Crop.height c == Qmax faceWidth faceHeight * 1.5) /\
  Crop.width c == ratio a * Crop.height c.

(** * Properties *)

(** ** Face-guided geometry *)

Example faceCrop_scenario :
  Crop.eq (faceCrop 1 1000 1000 [Box.mk 100 100 100 100])
          (Crop.mk Percent 7.5 7.5 15 15).
Proof. repeat split; vm_compute; reflexivity. Qed.

(** The clamp of lines 136-137: the origin is never negative, and the
    rectangle ends inside the image when it is no larger than the image. *)
Lemma clamp_nonneg (origin size : Q) :
  0 <= Qmax 0 (Qmin origin (100 - size)).
Proof. apply Q.le_max_l. Qed.

Lemma clamp_fits (origin size : Q) :
  size <= 100 -> Qmax 0 (Qmin origin (100 - size)) + size <= 100.
Proof.
  intros Hs.
  destruct (Q.max_spec 0 (Qmin origin (100 - size))) as [[_ E] | [_ E]];
    rewrite E; [ | lra ].
  pose proof (Q.le_min_r origin (100 - size)). lra.
Qed.

Lemma clamp_overflows (origin size : Q) :
  100 < size -> Qmax 0 (Qmin origin (100 - size)) == 0.
Proof.
  intros Hs.
  destruct (Q.max_spec 0 (Qmin origin (100 - size))) as [[Hlt _] | [_ E]];
    [ | exact E ].
  pose proof (Q.le_min_r origin (100 - size)). lra.
Qed.

(** The face-path rectangle lies inside the image exactly when its size is at
    most 100% on both axes. *)
Lemma faceCrop_within_iff (a W H : Q) (face : Box.t) (rest : list Box.t) :
  let c := faceCrop a W H (face :: rest) in
  withinImage c <-> Crop.width c <= 100 /\ Crop.height c <= 100.
Proof.
  unfold faceCrop, withinImage.
  destruct (Qeq_bool a 1);
    [ | destruct (Qeq_bool a (4 / 5)); [ | destruct (Qeq_bool a (16 / 9)) ] ];
    cbn [Crop.x Crop.y Crop.width Crop.height];
    (split;
     [ intros (Hx & Hy & Hw & Hh); split; lra
     | intros [Hw Hh]; repeat split;
       auto using clamp_nonneg, clamp_fits ]).
Qed.

(** The rectangle handed to [makeAspectCrop] can be larger than the image:
    a face box inside a 1000 x 1000 image that covers 80% of each axis gives,
    for the square ratio, the rectangle 0, 0, 120, 120.  What is installed is
    what the library makes of it. *)
Lemma faceCrop_large_face_leaves_image :
  inBounds 1000 1000 (Box.mk 100 100 800 800) /\
  Crop.eq (faceCrop (ratio Square) 1000 1000 [Box.mk 100 100 800 800])
          (Crop.mk Percent 0 0 120 120) /\
  ~ withinImage (faceCrop (ratio Square) 1000 1000 [Box.mk 100 100 800 800]).
Proof.
  split; [ | split ].
  - unfold inBounds; cbn; repeat split; lra.
  - repeat split; vm_compute; reflexivity.
  - rewrite faceCrop_within_iff. intros [Hw _]. vm_compute in Hw. auto.
Qed.

(** C2, as stated, fails: for the 4:5 ratio the width follows the face's
    width although the face is taller than wide. *)
Lemma faceCrop_portrait_ignores_larger_side :
  inBounds 1000 1000 (Box.mk 100 100 100 200) /\
  ~ sizedByLargerSide Portrait 1000 1000 (Box.mk 100 100 100 200)
      (faceCrop (ratio Portrait) 1000 1000 [Box.mk 100 100 100 200]).
Proof.
  split.
  - unfold inBounds; cbn; repeat split; lra.
  - intros [[E | E] _]; vm_compute in E; discriminate E.
Qed.

(** C2 (amended): the square ratio takes 1.5 times the larger of the face's
    percentage width and height for both sides; 4:5 takes 1.5 times the
    face's percentage width and derives the height; 16:9 takes 1.5 times the
    face's percentage height and derives the width.  On the 1000 x 1000 image
    with the face box 100, 100, 100, 100 and ratio 1:1 the rectangle is
    15 x 15 with its origin between 0 and 85 on both axes, as computed
    around the face and as installed after the library has adjusted and
    centred it. *)
Theorem faceCrop_size :
  (forall (a : AspectChoice) (W H : Q) (face : Box.t) (rest : list Box.t),
      0 < W -> 0 < H ->
      let faceWidth := Box.width face / W * 100 in
      let faceHeight := Box.height face / H * 100 in
      let c := faceCrop (ratio a) W H (face :: rest) in
      match a with
      | Square =>
          Crop.width c == Qmax faceWidth faceHeight * 1.5 /\
          Crop.height c == Qmax faceWidth faceHeight * 1.5
      | Portrait =>
          Crop.width c == faceWidth * 1.5 /\
          Crop.height c == Crop.width c * (5 / 4)
      | Wide =>
          Crop.height c == faceHeight * 1.5 /\
          Crop.width c == Crop.height c * (16 / 9)
      end) /\
  (let c := faceCrop (ratio Square) 1000 1000 [Box.mk 100 100 100 100] in
   Crop.width c == 15 /\ Crop.height c == 15 /\
   0 <= Crop.x c <= 85 /\ 0 <= Crop.y c <= 85) /\
  (exists st c,
      onImageLoad_resume (L := ReactImageCrop.library)
        (Suspended.mk 1000 1000 (ratio Square))
        (Resolved [Box.mk 100 100 100 100])
        (setIsLoading true loaded) = Return st /\
      crop st = Some c /\
      Crop.width c == 15 /\ Crop.height c == 15 /\
      0 <= Crop.x c <= 85 /\ 0 <= Crop.y c <= 85).
Proof.
  split; [ | split ].
  - intros a W H face rest _ _. destruct a; cbn; split; reflexivity.
  - cbv zeta. repeat split; vm_compute; try reflexivity; discriminate.
  - eexists. eexists. split; [ reflexivity | ]. split; [ reflexivity | ].
    repeat split; vm_compute; try reflexivity; discriminate.
Qed.

Lemma faceCrop_size_witness :
  0 < 1000 /\ 0 < 1000 /\
  Crop.width (faceCrop (ratio Wide) 1000 1000 [Box.mk 100 100 100 200])
  == Crop.height (faceCrop (ratio Wide) 1000 1000 [Box.mk 100 100 100 200])
     * (16 / 9).
Proof.
  split; [ reflexivity | split; [ reflexivity | ] ].
  apply (proj1 faceCrop_size Wide 1000 1000 (Box.mk 100 100 100 200) []);
    reflexivity.
Defined.

(** ** The aspect ratio of the installed rectangle *)

Lemma ratio_pos (a : AspectChoice) : 0 < ratio a.
Proof. destruct a; reflexivity. Qed.

Lemma hasAspect_center (L : CropLibrary) (a W H : Q) (c : Crop.t) :
  centerKeepsSize L -> 0 < W -> 0 < H ->
  hasAspect a W H c -> hasAspect a W H (centerCrop c W H).
Proof.
  intros HC HW HH. destruct (HC c W H HW HH) as (Hu & Hw & Hh).
  unfold hasAspect, pixelWidth, pixelHeight. rewrite Hu.
  destruct (Crop.unit c); rewrite Hw, Hh; auto.
Qed.

Lemma hasAspect_compat (a b W H : Q) (c : Crop.t) :
  a == b -> hasAspect a W H c -> hasAspect b W H c.
Proof. unfold hasAspect. intros E Ha. rewrite <- E. exact Ha. Qed.

Lemma faceCrop_unit (a W H : Q) (detections : list Box.t) :
  Crop.unit (faceCrop a W H detections) = Percent.
Proof.
  unfold faceCrop. destruct detections; [ reflexivity | ].
  destruct (Qeq_bool a 1);
    [ | destruct (Qeq_bool a (4 / 5)); [ | destruct (Qeq_bool a (16 / 9)) ] ];
    reflexivity.
Qed.

(** Whatever the detector answers, the resumed handler installs
    [centerCrop (makeAspectCrop r ...)] for some percent rectangle [r] and
    clears the loading flag; it never throws. *)
Lemma onImageLoad_resume_installs (L : CropLibrary)
  (k : Suspended.t) (d : Detection) (st : State) :
  exists r,
    Crop.unit r = Percent /\
    onImageLoad_resume k d st =
    Return (setIsLoading false
              (setCrop (Some (centerCrop
                                (makeAspectCrop r (Suspended.aspect k)
                                   (Suspended.width k) (Suspended.height k))
                                (Suspended.width k) (Suspended.height k)))
                       st)).
Proof.
  destruct d as [detections | e].
  - exists (faceCrop (Suspended.aspect k) (Suspended.width k)
                     (Suspended.height k) detections).
    split; [ apply faceCrop_unit | reflexivity ].
  - exists (Crop.mk Percent 5 5 90 90). split; reflexivity.
Qed.

(** The reference library meets the two requirements. *)
Module ReactImageCropFacts.
Import ReactImageCrop.

Lemma truthy_false (q : Q) : truthy q = false -> q == 0.
Proof.
  unfold truthy. intros E. apply negb_false_iff in E.
  apply Qeq_bool_iff in E. exact E.
Qed.

Lemma makeAspectCrop_makesAspect : makesAspect library.
Proof.
  intros c a W H Ha HW HH Hu.
  assert (Na : ~ a == 0) by lra.
  assert (NW : ~ W == 0) by lra.
  assert (NH : ~ H == 0) by lra.
  unfold hasAspect, pixelWidth, pixelHeight, library; cbn.
  unfold makeAspectCrop, convertToPixelCrop, convertToPercentCrop.
  rewrite Hu. cbn [Crop.unit Crop.x Crop.y Crop.width Crop.height].
  destruct (truthy (Crop.width c)) eqn:Tw;
    destruct (truthy (Crop.height c)) eqn:Th;
    destruct (Qgtb _ _); destruct (Qgtb _ _);
    cbn [Crop.unit Crop.x Crop.y Crop.width Crop.height];
    (split; [ reflexivity | ]);
    try (field; auto).
  all: apply truthy_false in Tw, Th; rewrite Tw, Th; field; auto.
Qed.

Lemma centerCrop_centerKeepsSize : centerKeepsSize library.
Proof.
  intros c W H HW HH. unfold library; cbn.
  assert (NW : ~ W == 0) by lra.
  assert (NH : ~ H == 0) by lra.
  unfold centerCrop, convertToPixelCrop, convertToPercentCrop.
  destruct (Crop.unit c) eqn:Hu;
    cbn [Crop.unit Crop.x Crop.y Crop.width Crop.height];
    repeat split; try reflexivity; field; auto.
Qed.
End ReactImageCropFacts.

(** *** Sessions without overlap keep the ratio *)

(** Under the two requirements on the library, every operation keeps
    [consistent]. *)
Section SessionFacts.

Context {L : CropLibrary}.
Hypothesis HM : makesAspect L.
Hypothesis HC : centerKeepsSize L.

Lemma installed_hasAspect (r : Crop.t) (a W H : Q) :
  0 < a -> 0 < W -> 0 < H -> Crop.unit r = Percent ->
  hasAspect a W H (centerCrop (makeAspectCrop r a W H) W H).
Proof.
  intros Ha HW HH Hr. apply hasAspect_center; auto. apply HM; auto.
Qed.

Lemma consistent_serve (st : State) (reqs : list Request) (img : Img.t)
  (d : Detection) :
  0 < Img.width img -> 0 < Img.height img ->
  consistent (mkWorld st None) ->
  consistent (serve (st, reqs) img d None).
Proof.
  intros HW HH Hc. unfold serve.
  destruct reqs as [ | [file | k] reqs ]; try exact Hc.
  destruct Hc as (Ha & Hsrc & Himg & Hcrop).
  cbn [state imgRef] in *.
  assert (Hnone : crop (onReaderLoad file st) = None).
  { destruct (crop st) as [c | ] eqn:Ec.
    - destruct (Hcrop c Ec) as (i & Hi & _). discriminate Hi.
    - unfold onReaderLoad. destruct (File.result file); exact Ec. }
  assert (Hasp : aspect (onReaderLoad file st) = aspect st).
  { unfold onReaderLoad. destruct (File.result file); reflexivity. }
  destruct (imgSrc (onReaderLoad file st)) eqn:Es.
  - split; [ | split; [ | split ] ];
      unfold cropHasAspect; cbn [state imgRef].
    + rewrite Hasp. exact Ha.
    + intros _. split; [ exact Hnone | reflexivity ].
    + intros i Hi. discriminate Hi.
    + intros c Hc. rewrite Hnone in Hc. discriminate Hc.
  - cbn [onImageLoad].
    destruct (onImageLoad_resume_installs L
                (Suspended.mk (Img.width img) (Img.height img)
                   (aspect (onReaderLoad file st)))
                d (setIsLoading true (onReaderLoad file st)))
      as (r & Hr & E).
    rewrite E. cbn [Suspended.width Suspended.height Suspended.aspect].
    split; [ | split; [ | split ] ]; unfold cropHasAspect;
      cbn [state imgRef aspect imgSrc crop setIsLoading setCrop].
    + rewrite Hasp. exact Ha.
    + rewrite Es. intros Hs. discriminate Hs.
    + intros i Hi. injection Hi as <-. split; assumption.
    + intros c Hc. injection Hc as <-. exists img.
      repeat split; auto.
      apply installed_hasAspect; auto. rewrite Hasp. exact Ha.
Qed.

Lemma consistent_run (op : Op) (w : World) :
  consistent w -> enabled op w -> consistent (run op w).
Proof.
  intros Hc He. destruct w as [st ref].
  pose proof Hc as (Ha & Hsrc & Himg & Hcrop).
  cbn [state imgRef] in *.
  destruct op as [files img d | files img d | | | | a | c | c | ];
    cbn [run enabled state imgRef] in *.
  - destruct He as (Es & HW & HH). destruct (Hsrc Es) as (_ & ->).
    destruct (onSelectFile files st) as [st1 reqs] eqn:E.
    apply consistent_serve; auto.
    assert (st1 = st) as ->.
    { unfold onSelectFile, handleFile in E.
      destruct files as [[ | f fs] | ]; try destruct (isImage f);
        congruence. }
    exact Hc.
  - destruct He as (Es & HW & HH). destruct (Hsrc Es) as (Hn & ->).
    destruct (handleDrop files st) as [st1 reqs] eqn:E.
    apply consistent_serve; auto.
    assert (st1 = setIsDragging false st) as ->.
    { unfold handleDrop, handleFile in E.
      destruct files as [ | f fs]; try destruct (isImage f); congruence. }
    exact Hc.
  - exact Hc.
  - exact Hc.
  - exact Hc.
  - unfold onClickAspect.
    destruct (Qeq_bool (aspect st) (ratio a)); [ exact Hc | ].
    destruct ref as [img | ]; cbn [aspectEffect].
    + destruct (Himg img eq_refl) as (HW & HH).
      split; [ | split; [ | split ] ]; unfold cropHasAspect;
        cbn [state imgRef aspect imgSrc crop setAspect setCrop];
        auto using ratio_pos.
      * intros Es. destruct (Hsrc Es) as (_ & Hn). discriminate Hn.
      * intros c Ec. injection Ec as <-. exists img.
        repeat split; auto.
        apply installed_hasAspect; auto using ratio_pos.
    + split; [ | split; [ | split ] ]; unfold cropHasAspect;
        cbn [state imgRef aspect imgSrc crop setAspect];
        auto using ratio_pos.
      * intros c Ec. destruct (Hcrop c Ec) as (i & Hi & _). discriminate Hi.
  - destruct He as (img & Hi & Hasp).
    split; [ | split; [ | split ] ]; unfold cropHasAspect;
      cbn [state imgRef aspect imgSrc crop onChange setCrop]; auto.
    + intros Es. destruct (Hsrc Es) as (_ & Hn). congruence.
    + intros c' Ec. injection Ec as <-. exists img.
      destruct (Himg img Hi). repeat split; auto.
  - exact Hc.
  - split; [ | split; [ | split ] ]; unfold cropHasAspect;
      cbn [state imgRef]; auto.
    + intros i Hi. discriminate Hi.
    + intros c Ec. discriminate Ec.
Qed.

Lemma reachable_consistent (w : World) : reachable w -> consistent w.
Proof.
  induction 1 as [ | op w Hr IH He ].
  - split; [ reflexivity | ].
    split; [ intros _; split; reflexivity | ].
    split; intros x Hx; discriminate Hx.
  - apply consistent_run; assumption.
Qed.

End SessionFacts.

(** C3, as stated, fails: the ratio is changed to 16:9 while the detection
    started under 1:1 is in flight; when the detection settles, the handler
    installs the rectangle for 1:1, and [aspect] is 16:9. *)
Lemma stale_detection_installs_old_aspect :
  exists st1 k st c,
    onImageLoad img200 loaded = (st1, [DetectAllFaces k]) /\
    onImageLoad_resume (L := ReactImageCrop.library) k (Resolved [])
      (onClickAspect (L := ReactImageCrop.library) (Some img200) (ratio Wide) st1)
    = Return st /\
    crop st = Some c /\
    aspect st == ratio Wide /\
    hasAspect (ratio Square) 200 200 c /\
    ~ hasAspect (aspect st) 200 200 c.
Proof.
  do 4 eexists. split; [ reflexivity | ].
  split; [ reflexivity | ].
  split; [ reflexivity | ].
  split; [ reflexivity | ].
  split; [ reflexivity | ].
  intros E. vm_compute in E. discriminate E.
Qed.

(** C3 (amended): provided the library's [makeAspectCrop] answers with the
    requested ratio and its [centerCrop] keeps the size, the rectangle that
    [onImageLoad] installs, with or without a face and also when detection
    fails, has the ratio that was active when the image loaded, and the
    rectangle installed on a change of ratio has the new ratio; and in a
    session whose operations do not overlap and whose crop surface reports
    rectangles of the active ratio, the crop rectangle has the active ratio
    after every operation. *)
Theorem installed_crop_has_aspect (L : CropLibrary) :
  makesAspect L -> centerKeepsSize L ->
  (forall (a : AspectChoice) (img : Img.t) (st : State),
      0 < Img.width img -> 0 < Img.height img ->
      (aspect st == ratio a ->
       forall d : Detection,
       exists k st' c,
         onImageLoad img st = (setIsLoading true st, [DetectAllFaces k]) /\
         onImageLoad_resume k d (setIsLoading true st) = Return st' /\
         crop st' = Some c /\
         aspect st' == ratio a /\
         hasAspect (ratio a) (Img.width img) (Img.height img) c) /\
      (~ aspect st == ratio a ->
       exists c,
         crop (onClickAspect (Some img) (ratio a) st) = Some c /\
         aspect (onClickAspect (Some img) (ratio a) st) = ratio a /\
         hasAspect (ratio a) (Img.width img) (Img.height img) c)) /\
  (forall w : World, reachable w -> cropHasAspect w).
Proof.
  intros HM HC. split.
  - intros a img st HW HH. split.
    + intros Ea d.
      set (k := Suspended.mk (Img.width img) (Img.height img) (aspect st)).
      destruct (onImageLoad_resume_installs L k d (setIsLoading true st))
        as (r & Hr & E).
      exists k. eexists. eexists.
      split; [ reflexivity | ].
      split; [ exact E | ]. split; [ reflexivity | ].
      split; [ exact Ea | ].
      apply hasAspect_compat with (a := aspect st); auto.
      apply installed_hasAspect; auto.
      subst k; cbn [Suspended.aspect]. pose proof (ratio_pos a). lra.
    + intros Na. unfold onClickAspect.
      destruct (Qeq_bool (aspect st) (ratio a)) eqn:E.
      * apply Qeq_bool_iff in E. contradiction.
      * eexists. split; [ reflexivity | ]. split; [ reflexivity | ].
        apply installed_hasAspect; auto. apply ratio_pos.
  - intros w Hw. apply (reachable_consistent HM HC w Hw).
Qed.

Lemma installed_crop_has_aspect_witness :
  makesAspect ReactImageCrop.library /\
  centerKeepsSize ReactImageCrop.library /\
  reachable (L := ReactImageCrop.library) wideSession /\
  cropHasAspect wideSession.
Proof.
  assert (R : reachable (L := ReactImageCrop.library) wideSession).
  { unfold wideSession. apply reachable_run; [ | exact I ].
    apply reachable_run; [ apply reachable_initial | ].
    split; [ reflexivity | split; reflexivity ]. }
  split; [ exact ReactImageCropFacts.makeAspectCrop_makesAspect | ].
  split; [ exact ReactImageCropFacts.centerCrop_centerKeepsSize | ].
  split; [ exact R | ].
  exact (proj2 (installed_crop_has_aspect ReactImageCrop.library
                  ReactImageCropFacts.makeAspectCrop_makesAspect
                  ReactImageCropFacts.centerCrop_centerKeepsSize)
               wideSession R).
Defined.

(** ** Detection without a face, and detection that fails *)

(** C4, as stated, fails: the ratio is changed to 16:9 while the detection
    started under 1:1 is in flight; whether the detection then fails or finds
    no face, the rectangle installed is the default rectangle adjusted to 1:1,
    not the default rectangle adjusted to the ratio that is active. *)
Lemma stale_failure_installs_old_fallback :
  exists st1 k st2 st3 c2 c3,
    onImageLoad img200 loaded = (st1, [DetectAllFaces k]) /\
    onImageLoad_resume (L := ReactImageCrop.library) k
      (Rejected "detector failed")
      (onClickAspect (L := ReactImageCrop.library) (Some img200) (ratio Wide) st1)
    = Return st2 /\
    onImageLoad_resume (L := ReactImageCrop.library) k (Resolved [])
      (onClickAspect (L := ReactImageCrop.library) (Some img200) (ratio Wide) st1)
    = Return st3 /\
    crop st2 = Some c2 /\ crop st3 = Some c3 /\
    aspect st2 == ratio Wide /\ aspect st3 == ratio Wide /\
    Crop.eq c2 (Crop.mk Percent 5 5 90 90) /\
    Crop.eq c3 (Crop.mk Percent 5 5 90 90) /\
    ~ Crop.eq c2
        (centerCrop (CropLibrary := ReactImageCrop.library)
           (makeAspectCrop (CropLibrary := ReactImageCrop.library)
              (Crop.mk Percent 5 5 90 90) (aspect st2) 200 200)
           200 200) /\
    ~ Crop.eq c3
        (centerCrop (CropLibrary := ReactImageCrop.library)
           (makeAspectCrop (CropLibrary := ReactImageCrop.library)
              (Crop.mk Percent 5 5 90 90) (aspect st3) 200 200)
           200 200).
Proof.
  do 6 eexists.
  do 7 (split; [ reflexivity | ]).
  split; [ repeat split | ]. split; [ repeat split | ].
  split; intros (_ & _ & E & _); vm_compute in E; discriminate E.
Qed.

(** C4 (amended): when the detector resolves with no detection, and when it
    rejects, the resumed [onImageLoad] installs the rectangle 5, 5, 90, 90
    passed through [makeAspectCrop] for the ratio that was active when the
    image loaded and through [centerCrop], and clears the loading flag; the
    handler leaves the ratio as it finds it, and for no outcome of the
    detection does it throw. *)
Theorem no_face_installs_fallback (L : CropLibrary) (img : Img.t) (st : State) :
  let width := Img.width img in
  let height := Img.height img in
  let k := Suspended.mk width height (aspect st) in
  let fallback :=
    centerCrop
      (makeAspectCrop (Crop.mk Percent 5 5 90 90) (aspect st) width height)
      width height in
  onImageLoad img st = (setIsLoading true st, [DetectAllFaces k]) /\
  (forall st' : State,
      onImageLoad_resume k (Resolved []) st'
      = Return (setIsLoading false (setCrop (Some fallback) st'))) /\
  (forall (error : string) (st' : State),
      onImageLoad_resume k (Rejected error) st'
      = Return (setIsLoading false (setCrop (Some fallback) st'))) /\
  (forall (d : Detection) (st' : State),
      exists st'',
        onImageLoad_resume k d st' = Return st'' /\
        aspect st'' = aspect st').
Proof.
  cbv zeta. repeat split.
  intros d st'.
  destruct (onImageLoad_resume_installs L
              (Suspended.mk (Img.width img) (Img.height img) (aspect st)) d st')
    as (r & _ & E).
  eexists. split; [ exact E | reflexivity ].
Qed.

(** ** Export *)

(** C5, as stated, fails on its scenario.  Read as a percent rectangle, the
    committed crop 10, 10, 50, 50 on the 200 x 200 rendering is 20, 20,
    100, 100 in rendered pixels: the canvas is 100 x 100, but the region
    drawn from the 400 x 400 file runs from 40, 40 to 240, 240, not from
    20, 20 to 120, 120.  Read as rendered pixels, the region is 20, 20 to
    120, 120 and the canvas is 50 x 50, not 100 x 100. *)
Lemma export_scenario_region_differs :
  (exists e,
      downloadCroppedImage (Some img200) true
        (onComplete
           (ReactImageCrop.convertToPixelCrop (Crop.mk Percent 10 10 50 50) 200 200)
           loaded) = Some e /\
      canvasWidth e == 100 /\ canvasHeight e == 100 /\
      ~ (sx (drawn e) == 20 /\ sy (drawn e) == 20 /\
         sx (drawn e) + sWidth (drawn e) == 120 /\
         sy (drawn e) + sHeight (drawn e) == 120)) /\
  (exists e,
      downloadCroppedImage (Some img200) true
        (onComplete (Crop.mk Px 10 10 50 50) loaded) = Some e /\
      sx (drawn e) == 20 /\ sy (drawn e) == 20 /\
      sx (drawn e) + sWidth (drawn e) == 120 /\
      sy (drawn e) + sHeight (drawn e) == 120 /\
      ~ (canvasWidth e == 100 /\ canvasHeight e == 100)).
Proof.
  split; eexists; (split; [ reflexivity | ]).
  - split; [ reflexivity | ]. split; [ reflexivity | ].
    intros (E & _). vm_compute in E. discriminate E.
  - do 4 (split; [ reflexivity | ]).
    intros (E & _). vm_compute in E. discriminate E.
Qed.

(** C5 (amended): with an image of positive rendered size, a committed crop
    and a drawing context, the export sizes the canvas to the committed
    crop's width and height and draws onto it, at 0, 0 and in that size, the
    region x * scaleX, y * scaleY, width * scaleX, height * scaleY of the
    file, each scale being natural size over rendered size of its own axis.
    For the percent rectangle 10, 10, 50, 50 committed on a 200 x 200
    rendering of a 400 x 400 file, the canvas is 100 x 100 and the region runs
    from 40, 40 to 240, 240. *)
Theorem export_draws_scaled_region :
  (forall (img : Img.t) (c : Crop.t) (st : State),
      0 < Img.width img -> 0 < Img.height img ->
      completedCrop st = Some c ->
      let scaleX := Img.naturalWidth img / Img.width img in
      let scaleY := Img.naturalHeight img / Img.height img in
      downloadCroppedImage (Some img) true st
      = Some (mkExport (Crop.width c) (Crop.height c)
                (mkDrawImage (Crop.x c * scaleX) (Crop.y c * scaleY)
                             (Crop.width c * scaleX) (Crop.height c * scaleY)
                             0 0 (Crop.width c) (Crop.height c))
                "cropped-image.jpg" "image/jpeg")) /\
  (exists e,
      downloadCroppedImage (Some img200) true
        (onComplete
           (ReactImageCrop.convertToPixelCrop (Crop.mk Percent 10 10 50 50) 200 200)
           loaded) = Some e /\
      canvasWidth e == 100 /\ canvasHeight e == 100 /\
      sx (drawn e) == 40 /\ sy (drawn e) == 40 /\
      sx (drawn e) + sWidth (drawn e) == 240 /\
      sy (drawn e) + sHeight (drawn e) == 240).
Proof.
  split.
  - intros img c st _ _ Hc. unfold downloadCroppedImage. rewrite Hc.
    reflexivity.
  - eexists. split; [ reflexivity | ]. repeat split.
Qed.

Lemma export_draws_scaled_region_witness :
  0 < Img.width img200 /\ 0 < Img.height img200 /\
  completedCrop (onComplete (Crop.mk Px 20 20 100 100) loaded)
  = Some (Crop.mk Px 20 20 100 100) /\
  downloadCroppedImage (Some img200) true
    (onComplete (Crop.mk Px 20 20 100 100) loaded)
  = Some (mkExport 100 100
            (mkDrawImage (20 * (400 / 200)) (20 * (400 / 200))
                         (100 * (400 / 200)) (100 * (400 / 200))
                         0 0 100 100)
            "cropped-image.jpg" "image/jpeg").
Proof.
  split; [ reflexivity | ]. split; [ reflexivity | ]. split; [ reflexivity | ].
  apply (proj1 export_draws_scaled_region img200 (Crop.mk Px 20 20 100 100)
           (onComplete (Crop.mk Px 20 20 100 100) loaded));
    reflexivity.
Defined.

(** Without an image, without a committed crop or without a drawing context
    the export does nothing. *)
Lemma export_guards (imgRef : option Img.t) (ctx : bool) (st : State) :
  imgRef = None \/ completedCrop st = None \/ ctx = false ->
  downloadCroppedImage imgRef ctx st = None.
Proof.
  unfold downloadCroppedImage.
  intros [E | [E | E]]; rewrite E;
    destruct imgRef; try destruct (completedCrop st); reflexivity.
Qed.

(** ** Cancel *)

(** C7, as stated, fails: cancel leaves the chosen ratio and the loading flag
    as they are, so the state after cancel is not the initial state. *)
Lemma handleCancel_keeps_aspect_and_loading :
  ~ aspect (handleCancel detecting) == aspect initialState /\
  isLoading (handleCancel detecting) <> isLoading initialState /\
  handleCancel detecting <> initialState.
Proof.
  split; [ | split ]; intros E; vm_compute in E; discriminate E.
Qed.

(** C7 (amended): cancel resets the image source, the live crop rectangle
    and the committed crop to their initial values and leaves the ratio, the
    loading flag and the drag flag unchanged. *)
Theorem handleCancel_resets_image_and_crops (st : State) :
  imgSrc (handleCancel st) = imgSrc initialState /\
  crop (handleCancel st) = crop initialState /\
  completedCrop (handleCancel st) = completedCrop initialState /\
  aspect (handleCancel st) = aspect st /\
  isLoading (handleCancel st) = isLoading st /\
  isDragging (handleCancel st) = isDragging st.
Proof. repeat split. Qed.

(** ** A detection that settles after cancel *)

(** C6, as stated, fails: the image is cleared while its detection is in
    flight; when the detection settles, the handler sets a crop rectangle and
    the loading flag on the cleared state. *)
Lemma stale_detection_after_cancel_sets_crop :
  exists st1 k st c,
    onImageLoad img200 loaded = (st1, [DetectAllFaces k]) /\
    onImageLoad_resume (L := ReactImageCrop.library) k (Resolved [])
      (handleCancel st1) = Return st /\
    st <> handleCancel st1 /\
    crop (handleCancel st1) = None /\
    crop st = Some c /\
    Crop.eq c (Crop.mk Percent 5 5 90 90) /\
    isLoading (handleCancel st1) = true /\
    isLoading st = false.
Proof.
  do 4 eexists. split; [ reflexivity | ]. split; [ reflexivity | ].
  split; [ intros E; discriminate E | ].
  split; [ reflexivity | ]. split; [ reflexivity | ].
  split; [ repeat split | ].
  split; reflexivity.
Qed.

(** C6 (amended): a detection that settles after cancel leaves the image
    source and the committed crop cleared and the ratio and drag flag as they
    are, and does update the state: it clears the loading flag and sets the
    live crop rectangle to the one computed for the cleared image, that is,
    from the rendered size of that image, the ratio active when it loaded
    and the detections, or the default rectangle when the detection
    failed. *)
Theorem stale_detection_after_cancel (L : CropLibrary)
  (img : Img.t) (d : Detection) (st : State) :
  let width := Img.width img in
  let height := Img.height img in
  let computed :=
    centerCrop
      (makeAspectCrop
         match d with
         | Resolved detections => faceCrop (aspect st) width height detections
         | Rejected _ => Crop.mk Percent 5 5 90 90
         end
         (aspect st) width height)
      width height in
  exists k st',
    onImageLoad img st = (setIsLoading true st, [DetectAllFaces k]) /\
    onImageLoad_resume k d (handleCancel (setIsLoading true st)) = Return st' /\
    imgSrc st' = EmptyString /\
    completedCrop st' = None /\
    aspect st' = aspect st /\
    isDragging st' = isDragging st /\
    crop st' = Some computed /\
    isLoading st' = false /\
    st' <> handleCancel (setIsLoading true st).
Proof.
  cbv zeta.
  exists (Suspended.mk (Img.width img) (Img.height img) (aspect st)).
  destruct d as [detections | error]; eexists;
    (split; [ reflexivity | ]); (split; [ reflexivity | ]);
    repeat split; intros E; discriminate E.
Qed.

(** ** A change of ratio *)

(** C8, as stated, fails: the effect reads the rendered size of the image
    element; on a 1000 x 667 file rendered at 900 x 600 the rectangle
    installed for 16:9 is not the one computed against 1000 x 667. *)
Lemma aspect_change_ignores_natural_size :
  exists c,
    crop (onClickAspect (L := ReactImageCrop.library)
            (Some img900) (ratio Wide) loaded) = Some c /\
    ~ Crop.eq c (recomputedAgainstNatural (L := ReactImageCrop.library)
                   img900 (ratio Wide)) /\
    Crop.height c == 75.9375 /\
    Crop.height (recomputedAgainstNatural (L := ReactImageCrop.library)
                   img900 (ratio Wide)) == 50625 # 667.
Proof.
  eexists. split; [ reflexivity | ]. split.
  - intros (_ & _ & _ & _ & E). vm_compute in E. discriminate E.
  - split; reflexivity.
Qed.

(** C8 (amended): when the ratio changes while an image element is mounted,
    the crop rectangle is set to the default rectangle 5, 5, 90, 90 passed
    through [makeAspectCrop] for the new ratio and through [centerCrop],
    both against the rendered width and height of the image element; the
    natural size of the file is not read. *)
Theorem aspect_change_recomputes_on_rendered_size (L : CropLibrary)
  (img : Img.t) (a : Q) (st : State) :
  ~ aspect st == a ->
  let width := Img.width img in
  let height := Img.height img in
  onClickAspect (Some img) a st
  = setCrop
      (Some (centerCrop
               (makeAspectCrop (Crop.mk Percent 5 5 90 90) a width height)
               width height))
      (setAspect a st) /\
  (forall naturalWidth naturalHeight : Q,
      onClickAspect (Some (Img.mk width height naturalWidth naturalHeight)) a st
      = onClickAspect (Some img) a st).
Proof.
  intros Na. cbv zeta. unfold onClickAspect.
  destruct (Qeq_bool (aspect st) a) eqn:E.
  - apply Qeq_bool_iff in E. contradiction.
  - split; reflexivity.
Qed.

Lemma aspect_change_recomputes_on_rendered_size_witness :
  ~ aspect loaded == ratio Wide /\
  onClickAspect (L := ReactImageCrop.library) (Some img900) (ratio Wide) loaded
  = setCrop
      (Some (centerCrop (CropLibrary := ReactImageCrop.library)
               (makeAspectCrop (CropLibrary := ReactImageCrop.library)
                  (Crop.mk Percent 5 5 90 90) (ratio Wide) 900 600)
               900 600))
      (setAspect (ratio Wide) loaded).
Proof.
  assert (N : ~ aspect loaded == ratio Wide) by (intros E; discriminate E).
  split; [ exact N | ].
  exact (proj1 (aspect_change_recomputes_on_rendered_size
                  ReactImageCrop.library img900 (ratio Wide) loaded N)).
Defined.

(** A click on the ratio already chosen changes nothing, and without an
    image element only the ratio changes. *)
Lemma onClickAspect_same (L : CropLibrary) (imgRef : option Img.t) (a : Q)
  (st : State) :
  aspect st == a -> onClickAspect imgRef a st = st.
Proof.
  intros E. unfold onClickAspect.
  apply Qeq_bool_iff in E. rewrite E. reflexivity.
Qed.

Lemma onClickAspect_no_image (L : CropLibrary) (a : Q) (st : State) :
  ~ aspect st == a -> onClickAspect None a st = setAspect a st.
Proof.
  intros Na. unfold onClickAspect.
  destruct (Qeq_bool (aspect st) a) eqn:E; [ | reflexivity ].
  apply Qeq_bool_iff in E. contradiction.
Qed.

(** ** Intake *)

Example isImage_png : isImage pngFile = true.
Proof. reflexivity. Qed.

Example isImage_text : isImage textFile = false.
Proof. reflexivity. Qed.

(** C9, as stated, fails on the drop path: the drop of a file that is not an
    image clears the drag flag that entering the drop area had set. *)
Lemma handleDrop_text_clears_dragging :
  isImage textFile = false /\
  isDragging (handleDragEnter initialState) = true /\
  isDragging (fst (handleDrop [textFile] (handleDragEnter initialState))) = false /\
  fst (handleDrop [textFile] (handleDragEnter initialState))
  <> handleDragEnter initialState.
Proof.
  repeat split. intros E. discriminate E.
Qed.

(** C9 (amended): for a file whose declared type does not begin with
    [image/], [handleFile] and the picker leave the state as it is and start
    no read; a drop starts no read either and changes nothing but the drag
    flag, which it clears.  No handler has an error outcome. *)
Theorem non_image_is_ignored (file : File.t) (rest : list File.t) (st : State) :
  isImage file = false ->
  handleFile file st = (st, []) /\
  onSelectFile (Some (file :: rest)) st = (st, []) /\
  handleDrop (file :: rest) st = (setIsDragging false st, []) /\
  imgSrc (fst (handleDrop (file :: rest) st)) = imgSrc st /\
  crop (fst (handleDrop (file :: rest) st)) = crop st /\
  completedCrop (fst (handleDrop (file :: rest) st)) = completedCrop st /\
  aspect (fst (handleDrop (file :: rest) st)) = aspect st /\
  isLoading (fst (handleDrop (file :: rest) st)) = isLoading st.
Proof.
  intros E. unfold handleDrop, onSelectFile, handleFile. rewrite E.
  repeat split.
Qed.

Lemma non_image_is_ignored_witness :
  isImage textFile = false /\
  handleDrop [textFile; pngFile] (handleDragEnter loaded)
  = (setIsDragging false (handleDragEnter loaded), []).
Proof.
  split; [ reflexivity | ].
  apply (non_image_is_ignored textFile [pngFile] (handleDragEnter loaded)).
  reflexivity.
Defined.

(** An image file is handed to the reader, and the state changes only when
    the read completes. *)
Lemma image_is_read (file : File.t) (st : State) :
  isImage file = true ->
  handleFile file st = (st, [ReadAsDataURL file]).
Proof. intros E. unfold handleFile. rewrite E. reflexivity. Qed.

(** C10: of several files selected or dropped at once only the first is
    handled: the outcome is that of the first file alone; the first file is
    handed to the reader exactly if it is an image, and once it is read the
    image source is its content; no read is started for any other file. *)
Theorem only_first_file_is_handled (file : File.t) (rest : list File.t)
  (st : State) :
  onSelectFile (Some (file :: rest)) st = handleFile file st /\
  onSelectFile (Some (file :: rest)) st = onSelectFile (Some [file]) st /\
  handleDrop (file :: rest) st = handleFile file (setIsDragging false st) /\
  handleDrop (file :: rest) st = handleDrop [file] st /\
  (forall r, In r (snd (onSelectFile (Some (file :: rest)) st)) ->
             r = ReadAsDataURL file) /\
  (forall r, In r (snd (handleDrop (file :: rest) st)) ->
             r = ReadAsDataURL file) /\
  snd (onSelectFile (Some (file :: rest)) st)
  = (if isImage file then [ReadAsDataURL file] else []) /\
  snd (handleDrop (file :: rest) st)
  = (if isImage file then [ReadAsDataURL file] else []) /\
  (forall url : string,
      File.result file = Some url ->
      imgSrc (onReaderLoad file (fst (onSelectFile (Some (file :: rest)) st)))
      = url /\
      imgSrc (onReaderLoad file (fst (handleDrop (file :: rest) st))) = url).
Proof.
  do 4 (split; [ reflexivity | ]).
  split; [ | split; [ | split; [ | split ] ] ].
  - intros r. unfold onSelectFile, handleFile.
    destruct (isImage file); cbn; intros Hr;
      solve [ contradiction | destruct Hr as [E | E]; [ auto | contradiction ] ].
  - intros r. unfold handleDrop, handleFile.
    destruct (isImage file); cbn; intros Hr;
      solve [ contradiction | destruct Hr as [E | E]; [ auto | contradiction ] ].
  - unfold onSelectFile, handleFile. destruct (isImage file); reflexivity.
  - unfold handleDrop, handleFile. destruct (isImage file); reflexivity.
  - intros url Hr. unfold onReaderLoad. rewrite Hr. split; reflexivity.
Qed.

Lemma only_first_file_is_handled_witness :
  snd (handleDrop [pngFile; textFile; pngFile] (handleDragEnter initialState))
  = [ReadAsDataURL pngFile] /\
  imgSrc (onReaderLoad pngFile
            (fst (handleDrop [pngFile; textFile; pngFile]
                    (handleDragEnter initialState))))
  = "data:image/png;base64,iVBORw0KGgo=".
Proof.
  pose proof (only_first_file_is_handled pngFile [textFile; pngFile]
                (handleDragEnter initialState))
    as (_ & _ & _ & _ & _ & _ & _ & Hd & Hu).
  split; [ exact Hd | ].
  exact (proj2 (Hu "data:image/png;base64,iVBORw0KGgo=" eq_refl)).
Defined.

(** ** Arithmetic of percentages *)

(** Halves and the two ratios written as fractions, for linear arithmetic. *)
Ltac fractions :=
  unfold Qdiv in *;
  change (/ 2) with (1 # 2) in *;
  change (5 * / 4) with (5 # 4) in *;
  change (16 * / 9) with (16 # 9) in *.

Lemma percent_le (b W c : Q) :
  0 < W -> (b / W * 100 <= c <-> 100 * b <= c * W).
Proof.
  intros HW. assert (NW : ~ W == 0) by lra. split; intros Hle.
  - assert (E : 100 * b == (b / W * 100) * W) by (field; exact NW).
    rewrite E. apply Qmult_le_compat_r; lra.
  - assert (E : b / W * 100 == (100 * b) / W) by (field; exact NW).
    rewrite E. apply Qle_shift_div_r; assumption.
Qed.

Lemma percent_nonneg (b W : Q) : 0 < W -> 0 <= b -> 0 <= b / W * 100.
Proof.
  intros HW Hb.
  assert (0 <= b / W) by (apply Qle_shift_div_l; lra). lra.
Qed.

Lemma percent_sum_le (b s W : Q) :
  0 < W -> b + s <= W -> b / W * 100 + s / W * 100 <= 100.
Proof.
  intros HW Hs. assert (NW : ~ W == 0) by lra.
  assert (E : b / W * 100 + s / W * 100 == (b + s) / W * 100)
    by (field; exact NW).
  rewrite E. apply percent_le; lra.
Qed.

(** ** The installed rectangle lies inside the image *)

Lemma clamp_le_100 (origin size : Q) :
  0 <= size -> Qmax 0 (Qmin origin (100 - size)) <= 100.
Proof.
  intros Hs.
  destruct (Q.max_spec 0 (Qmin origin (100 - size))) as [[_ E] | [_ E]];
    rewrite E; [ | lra ].
  pose proof (Q.le_min_r origin (100 - size)). lra.
Qed.

(** Around a face inside the image, the rectangle handed to
    [makeAspectCrop] starts inside the image and has no negative side. *)
Lemma faceCrop_starts_inside (a W H : Q) (face : Box.t) (rest : list Box.t) :
  0 < W -> 0 < H -> inBounds W H face ->
  let c := faceCrop a W H (face :: rest) in
  0 <= Crop.x c <= 100 /\ 0 <= Crop.y c <= 100 /\
  0 <= Crop.width c /\ 0 <= Crop.height c.
Proof.
  intros HW HH (_ & _ & Hw & Hh & _ & _). cbv zeta.
  pose proof (percent_nonneg _ _ HW Hw) as Pw.
  pose proof (percent_nonneg _ _ HH Hh) as Ph.
  unfold faceCrop.
  set (fw := Box.width face / W * 100) in *.
  set (fh := Box.height face / H * 100) in *.
  pose proof (Q.le_max_l fw fh) as Ml.
  assert (S1 : 0 <= Qmax fw fh * 1.5) by lra.
  assert (S2 : 0 <= fw * 1.5) by lra.
  assert (S3 : 0 <= fw * 1.5 * (5 / 4)) by (fractions; lra).
  assert (S4 : 0 <= fh * 1.5) by lra.
  assert (S5 : 0 <= fh * 1.5 * (16 / 9)) by (fractions; lra).
  assert (S6 : 0 <= 90) by lra.
  destruct (Qeq_bool a 1);
    [ | destruct (Qeq_bool a (4 / 5)); [ | destruct (Qeq_bool a (16 / 9)) ] ];
    cbn [Crop.x Crop.y Crop.width Crop.height];
    repeat split; auto using clamp_nonneg, clamp_le_100.
Qed.

Lemma px_range (p W : Q) : 0 < W -> 0 <= p <= 100 -> 0 <= p * W / 100 <= W.
Proof.
  intros HW [Hp Hq].
  assert (E : p * W / 100 == W * (p * (1 # 100))) by field.
  assert (0 <= p * (1 # 100) <= 1) as [P1 P2] by lra.
  rewrite E. split.
  - apply Qmult_le_0_compat; lra.
  - rewrite <- (Qmult_1_r W) at 2. apply Qmult_le_l; assumption.
Qed.

Lemma px_nonneg (p W : Q) : 0 < W -> 0 <= p -> 0 <= p * W / 100.
Proof.
  intros HW Hp. assert (E : p * W / 100 == (p * (1 # 100)) * W) by field.
  rewrite E. apply Qmult_le_0_compat; lra.
Qed.

Lemma percent_range (v W : Q) :
  0 < W -> 0 <= v <= W -> 0 <= v / W * 100 <= 100.
Proof.
  intros HW [Hv Hw]. split.
  - apply percent_nonneg; assumption.
  - apply percent_le; lra.
Qed.

Lemma Qgtb_true (a b : Q) : ReactImageCrop.Qgtb a b = true -> b < a.
Proof.
  unfold ReactImageCrop.Qgtb. intros E. apply negb_true_iff in E.
  apply Qnot_le_lt. intros Hle. apply Qle_bool_iff in Hle. congruence.
Qed.

Lemma Qgtb_false (a b : Q) : ReactImageCrop.Qgtb a b = false -> a <= b.
Proof.
  unfold ReactImageCrop.Qgtb. intros E. apply negb_false_iff in E.
  apply Qle_bool_iff. exact E.
Qed.

(** The two clipping steps of the reference [makeAspectCrop], in pixels. *)
Lemma fit_clip (a W H X Y w h : Q) :
  0 < a -> 0 <= X <= W -> 0 <= Y <= H -> 0 <= h -> w == h * a ->
  let w2 := if ReactImageCrop.Qgtb (Y + h) H then (H - Y) * a else w in
  let h2 := if ReactImageCrop.Qgtb (Y + h) H then H - Y else h in
  let w3 := if ReactImageCrop.Qgtb (X + w2) W then W - X else w2 in
  let h3 := if ReactImageCrop.Qgtb (X + w2) W then (W - X) / a else h2 in
  0 <= w3 <= W /\ 0 <= h3 <= H.
Proof.
  intros Ha [HX1 HX2] [HY1 HY2] Hh Ew. cbv zeta.
  assert (Main : forall w2 h2 : Q,
             w2 == h2 * a -> 0 <= h2 <= H ->
             0 <= (if ReactImageCrop.Qgtb (X + w2) W then W - X else w2) <= W /\
             0 <= (if ReactImageCrop.Qgtb (X + w2) W then (W - X) / a else h2)
             <= H).
  { intros w2 h2 E2 [G1 G2].
    assert (P : 0 <= h2 * a) by (apply Qmult_le_0_compat; lra).
    assert (Q2 : h2 * a <= H * a) by (apply Qmult_le_compat_r; lra).
    destruct (ReactImageCrop.Qgtb (X + w2) W) eqn:C.
    - apply Qgtb_true in C. split; [ lra | ]. split.
      + apply Qle_shift_div_l; lra.
      + apply Qle_shift_div_r; lra.
    - apply Qgtb_false in C. split; lra. }
  destruct (ReactImageCrop.Qgtb (Y + h) H) eqn:C.
  - apply Main; [ reflexivity | lra ].
  - apply Qgtb_false in C. apply Main; [ exact Ew | lra ].
Qed.

(** The reference library meets the two requirements. *)
Lemma reference_makesFit : makesFit ReactImageCrop.library.
Proof.
  intros c a W H Ha HW HH Hu Hx Hy Hw Hh.
  assert (Na : ~ a == 0) by lra.
  pose proof (px_range _ _ HW Hx) as PX.
  pose proof (px_range _ _ HH Hy) as PY.
  pose proof (px_nonneg _ _ HW Hw) as Pw.
  pose proof (px_nonneg _ _ HH Hh) as Ph.
  unfold ReactImageCrop.library; cbn.
  unfold ReactImageCrop.makeAspectCrop, ReactImageCrop.convertToPixelCrop,
    ReactImageCrop.convertToPercentCrop.
  rewrite Hu. cbn [Crop.unit Crop.x Crop.y Crop.width Crop.height].
  set (X := Crop.x c * W / 100) in *. set (Y := Crop.y c * H / 100) in *.
  set (w0 := Crop.width c * W / 100) in *.
  set (h0 := Crop.height c * H / 100) in *.
  assert (Pd : 0 <= w0 / a) by (apply Qle_shift_div_l; lra).
  assert (Pm : 0 <= h0 * a) by (apply Qmult_le_0_compat; lra).
  assert (Step : forall w1 h1 : Q,
             0 <= h1 -> w1 == h1 * a ->
             Crop.unit
               (let '(w, h) :=
                  if ReactImageCrop.Qgtb (Y + h1) H
                  then ((H - Y) * a, H - Y) else (w1, h1) in
                let '(w2, h2) :=
                  if ReactImageCrop.Qgtb (X + w) W
                  then (W - X, (W - X) / a) else (w, h) in
                Crop.mk Percent (X / W * 100) (Y / H * 100)
                        (w2 / W * 100) (h2 / H * 100)) = Percent /\
             0 <= Crop.width
               (let '(w, h) :=
                  if ReactImageCrop.Qgtb (Y + h1) H
                  then ((H - Y) * a, H - Y) else (w1, h1) in
                let '(w2, h2) :=
                  if ReactImageCrop.Qgtb (X + w) W
                  then (W - X, (W - X) / a) else (w, h) in
                Crop.mk Percent (X / W * 100) (Y / H * 100)
                        (w2 / W * 100) (h2 / H * 100)) <= 100 /\
             0 <= Crop.height
               (let '(w, h) :=
                  if ReactImageCrop.Qgtb (Y + h1) H
                  then ((H - Y) * a, H - Y) else (w1, h1) in
                let '(w2, h2) :=
                  if ReactImageCrop.Qgtb (X + w) W
                  then (W - X, (W - X) / a) else (w, h) in
                Crop.mk Percent (X / W * 100) (Y / H * 100)
                        (w2 / W * 100) (h2 / H * 100)) <= 100).
  { intros w1 h1 P1 E1.
    pose proof (fit_clip a W H X Y w1 h1 Ha PX PY P1 E1) as F.
    cbv zeta in F.
    destruct (ReactImageCrop.Qgtb (Y + h1) H);
      destruct (ReactImageCrop.Qgtb (X + _) W);
      cbn [Crop.unit Crop.width Crop.height]; destruct F as [F1 F2];
      (split; [ reflexivity | ]); split; apply percent_range; assumption. }
  destruct (ReactImageCrop.truthy (Crop.width c)) eqn:Tw;
    destruct (ReactImageCrop.truthy (Crop.height c)) eqn:Th.
  - apply Step; [ exact Pd | reflexivity ].
  - apply Step; [ exact Pd | field; exact Na ].
  - apply Step; [ exact Ph | reflexivity ].
  - apply Step; [ exact Ph | ].
    apply ReactImageCropFacts.truthy_false in Tw, Th.
    subst w0 h0. rewrite Tw, Th. field.
Qed.

Lemma reference_centers : centers ReactImageCrop.library.
Proof.
  intros c W H HW HH Hu. unfold ReactImageCrop.library; cbn.
  assert (NW : ~ W == 0) by lra.
  assert (NH : ~ H == 0) by lra.
  unfold ReactImageCrop.centerCrop, ReactImageCrop.convertToPixelCrop,
    ReactImageCrop.convertToPercentCrop.
  rewrite Hu. cbn [Crop.unit Crop.x Crop.y Crop.width Crop.height].
  repeat split; field; assumption.
Qed.

(** C1: provided the library's [makeAspectCrop] answers with a rectangle no
    larger than the image and its [centerCrop] centres it, the rectangle
    installed for a face box inside an image of positive size lies inside the
    image: 0 <= x, 0 <= y, x + width <= 100 and y + height <= 100.  The clamp
    of lines 136-137 is what hands the library a rectangle that starts inside
    the image. *)
Theorem installed_crop_within_image (L : CropLibrary) :
  makesFit L -> centers L ->
  forall (a : AspectChoice) (img : Img.t) (face : Box.t) (rest : list Box.t)
         (st : State),
    0 < Img.width img -> 0 < Img.height img ->
    inBounds (Img.width img) (Img.height img) face ->
    aspect st == ratio a ->
    let clamped :=
      faceCrop (aspect st) (Img.width img) (Img.height img) (face :: rest) in
    0 <= Crop.x clamped <= 100 /\ 0 <= Crop.y clamped <= 100 /\
    exists k st' c,
      onImageLoad img st = (setIsLoading true st, [DetectAllFaces k]) /\
      onImageLoad_resume k (Resolved (face :: rest)) (setIsLoading true st)
      = Return st' /\
      crop st' = Some c /\
      withinImage c.
Proof.
  intros HF HC a img face rest st HW HH HB Ea. cbv zeta.
  destruct (faceCrop_starts_inside (aspect st) _ _ face rest HW HH HB)
    as (Sx & Sy & Sw & Sh).
  split; [ exact Sx | ]. split; [ exact Sy | ].
  assert (Ha : 0 < aspect st) by (pose proof (ratio_pos a); lra).
  pose proof (faceCrop_unit (aspect st) (Img.width img) (Img.height img)
                (face :: rest)) as Hu.
  destruct (HF _ _ _ _ Ha HW HH Hu Sx Sy Sw Sh) as (Mu & [Mw1 Mw2] & [Mh1 Mh2]).
  destruct (HC _ _ _ HW HH Mu) as (_ & Cw & Ch & Cx & Cy).
  exists (Suspended.mk (Img.width img) (Img.height img) (aspect st)).
  eexists. eexists.
  split; [ reflexivity | ]. split; [ reflexivity | ].
  split; [ reflexivity | ].
  unfold withinImage. rewrite Cx, Cy, Cw, Ch.
  repeat split; fractions; lra.
Qed.

Lemma installed_crop_within_image_witness :
  makesFit ReactImageCrop.library /\ centers ReactImageCrop.library /\
  inBounds 1000 1000 (Box.mk 100 100 800 800) /\
  exists st' c,
    onImageLoad_resume (L := ReactImageCrop.library)
      (Suspended.mk 1000 1000 (aspect loaded))
      (Resolved [Box.mk 100 100 800 800]) (setIsLoading true loaded)
    = Return st' /\
    crop st' = Some c /\ withinImage c.
Proof.
  assert (B : inBounds 1000 1000 (Box.mk 100 100 800 800))
    by (unfold inBounds; cbn; repeat split; discriminate).
  split; [ exact reference_makesFit | ].
  split; [ exact reference_centers | ]. split; [ exact B | ].
  destruct (installed_crop_within_image ReactImageCrop.library
              reference_makesFit reference_centers Square
              (Img.mk 1000 1000 1000 1000) (Box.mk 100 100 800 800) [] loaded
              eq_refl eq_refl B (Qeq_refl _))
    as (_ & _ & k & st' & c & Ek & E & Hc & Hin).
  injection Ek as <-.
  exists st', c. split; [ exact E | ]. split; [ exact Hc | exact Hin ].
Defined.

(** On the face that makes the clamped rectangle 120% wide, what is
    installed is the whole image. *)
Example large_face_installs_whole_image :
  exists st' c,
    onImageLoad_resume (L := ReactImageCrop.library)
      (Suspended.mk 1000 1000 (ratio Square))
      (Resolved [Box.mk 100 100 800 800]) (setIsLoading true loaded)
    = Return st' /\
    crop st' = Some c /\ Crop.eq c (Crop.mk Percent 0 0 100 100).
Proof.
  eexists. eexists. split; [ reflexivity | ]. split; [ reflexivity | ].
  repeat split.
Qed.

(** * Further properties of the component *)

(** ** The rectangle around a face ([onImageLoad], lines 114-138) *)

(** The clamped origin of a rectangle that is at least as large as the face
    and was centred on it: the face stays between the rectangle's edges. *)
Lemma clamp_contains (f fs s : Q) :
  0 <= f -> f + fs <= 100 -> fs <= s ->
  Qmax 0 (Qmin (f - (s - fs) / 2) (100 - s)) <= f /\
  f + fs <= Qmax 0 (Qmin (f - (s - fs) / 2) (100 - s)) + s.
Proof.
  intros Hf Hsum Hs.
  destruct (Q.max_spec 0 (Qmin (f - (s - fs) / 2) (100 - s)))
    as [[Hlt E] | [Hle E]]; rewrite E;
    destruct (Q.min_spec (f - (s - fs) / 2) (100 - s))
      as [[Hm Em] | [Hm Em]]; rewrite Em in *; split; fractions; lra.
Qed.

(** Away from the edges the clamp leaves the centred origin alone. *)
Lemma clamp_inactive (o s : Q) :
  0 <= o -> o <= 100 - s -> Qmax 0 (Qmin o (100 - s)) == o.
Proof.
  intros Ho Hs.
  destruct (Q.max_spec 0 (Qmin o (100 - s))) as [[Hx E] | [Hx E]]; rewrite E;
    destruct (Q.min_spec o (100 - s)) as [[Hm Em] | [Hm Em]];
    rewrite Em in *; lra.
Qed.

(** The face-path rectangle lies inside the image exactly when the face is
    small enough: at most 2/3 of the image on both axes for 1:1, at most 8/15
    of its width for 4:5, at most 3/8 of its height for 16:9. *)
Theorem faceCrop_fits_iff_face_small (a : AspectChoice) (W H : Q)
  (face : Box.t) (rest : list Box.t) :
  0 < W -> 0 < H ->
  (withinImage (faceCrop (ratio a) W H (face :: rest)) <->
   match a with
   | Square => 3 * Box.width face <= 2 * W /\ 3 * Box.height face <= 2 * H
   | Portrait => 15 * Box.width face <= 8 * W
   | Wide => 8 * Box.height face <= 3 * H
   end).
Proof.
  intros HW HH. rewrite faceCrop_within_iff.
  pose proof (percent_le (Box.width face) W (200 # 3) HW) as Pw2.
  pose proof (percent_le (Box.height face) H (200 # 3) HH) as Ph2.
  pose proof (percent_le (Box.width face) W (160 # 3) HW) as Pw.
  pose proof (percent_le (Box.height face) H (75 # 2) HH) as Ph.
  set (fw := Box.width face / W * 100) in *.
  set (fh := Box.height face / H * 100) in *.
  destruct a; unfold faceCrop; fold fw; fold fh;
    cbn [ratio]; [ change (Qeq_bool 1 1) with true
                 | change (Qeq_bool (4 / 5) 1) with false;
                   change (Qeq_bool (4 / 5) (4 / 5)) with true
                 | change (Qeq_bool (16 / 9) 1) with false;
                   change (Qeq_bool (16 / 9) (4 / 5)) with false;
                   change (Qeq_bool (16 / 9) (16 / 9)) with true ];
    cbn [Crop.width Crop.height]; fractions.
  - pose proof (Q.max_lub_iff fw fh (200 # 3)) as M.
    split.
    + intros [Hm _].
      assert (Hm' : Qmax fw fh <= 200 # 3) by lra.
      apply M in Hm'. destruct Hm' as [Hw Hh].
      apply Pw2 in Hw. apply Ph2 in Hh. split; lra.
    + intros [Hw Hh].
      assert (Hm : Qmax fw fh <= 200 # 3).
      { apply M. split; [ apply Pw2 | apply Ph2 ]; lra. }
      split; lra.
  - split.
    + intros [_ Hh].
      assert (Hw : fw <= 160 # 3) by lra.
      apply Pw in Hw. lra.
    + intros Hw.
      assert (Hw' : fw <= 160 # 3) by (apply Pw; lra).
      split; lra.
  - split.
    + intros [Hw _].
      assert (Hh : fh <= 75 # 2) by lra.
      apply Ph in Hh. lra.
    + intros Hh.
      assert (Hh' : fh <= 75 # 2) by (apply Ph; lra).
      split; lra.
Qed.

Lemma faceCrop_fits_iff_face_small_witness :
  0 < 1000 /\ 0 < 800 /\
  (withinImage (faceCrop (ratio Wide) 1000 800 [Box.mk 300 200 250 300]) <->
   8 * 300 <= 3 * 800).
Proof.
  split; [ reflexivity | ]. split; [ reflexivity | ].
  apply (faceCrop_fits_iff_face_small Wide 1000 800 (Box.mk 300 200 250 300) []);
    reflexivity.
Defined.

(** The branches of [faceCrop] on a face. *)
Ltac faceCrop_cases a :=
  unfold faceCrop in *;
  destruct (Qeq_bool a 1);
  [ | destruct (Qeq_bool a (4 / 5)); [ | destruct (Qeq_bool a (16 / 9)) ] ];
  cbn [Crop.unit Crop.x Crop.y Crop.width Crop.height] in *.

(** Whatever the ratio and the face box, on an image of positive size the
    origin of the face-path rectangle is not negative, and on an axis where
    the rectangle is larger than the image the origin is 0: the rectangle
    starts at the left or top edge and overhangs the opposite one. *)
Theorem faceCrop_origin (a W H : Q) (face : Box.t) (rest : list Box.t) :
  0 < W -> 0 < H ->
  let c := faceCrop a W H (face :: rest) in
  0 <= Crop.x c /\ 0 <= Crop.y c /\
  (100 < Crop.width c -> Crop.x c == 0 /\ 100 < Crop.x c + Crop.width c) /\
  (100 < Crop.height c -> Crop.y c == 0 /\ 100 < Crop.y c + Crop.height c).
Proof.
  intros _ _. cbv zeta. faceCrop_cases a;
    (split; [ apply clamp_nonneg | ]);
    (split; [ apply clamp_nonneg | ]);
    (split; intros Hs; rewrite (clamp_overflows _ _ Hs); split; lra).
Qed.

Lemma faceCrop_origin_witness :
  0 < 1000 /\ 0 < 800 /\
  100 < Crop.width (faceCrop (ratio Wide) 1000 800 [Box.mk 300 200 250 400]) /\
  Crop.x (faceCrop (ratio Wide) 1000 800 [Box.mk 300 200 250 400]) == 0.
Proof.
  split; [ reflexivity | ]. split; [ reflexivity | ].
  assert (S : 100 < Crop.width
                    (faceCrop (ratio Wide) 1000 800 [Box.mk 300 200 250 400]))
    by reflexivity.
  split; [ exact S | ].
  destruct (faceCrop_origin (ratio Wide) 1000 800 (Box.mk 300 200 250 400) []
              eq_refl eq_refl) as (_ & _ & Hx & _).
  exact (proj1 (Hx S)).
Defined.

(** A face box inside an image of positive size lies inside the face-path
    rectangle whenever the rectangle is at least as wide and as high as the
    face (all in percent of the image). *)
Theorem faceCrop_contains_face (a W H : Q) (face : Box.t) (rest : list Box.t) :
  0 < W -> 0 < H -> inBounds W H face ->
  let c := faceCrop a W H (face :: rest) in
  let faceX := Box.x face / W * 100 in
  let faceY := Box.y face / H * 100 in
  let faceWidth := Box.width face / W * 100 in
  let faceHeight := Box.height face / H * 100 in
  faceWidth <= Crop.width c -> faceHeight <= Crop.height c ->
  Crop.x c <= faceX /\ faceX + faceWidth <= Crop.x c + Crop.width c /\
  Crop.y c <= faceY /\ faceY + faceHeight <= Crop.y c + Crop.height c.
Proof.
  intros HW HH (Hx & Hy & Hw & Hh & Hxw & Hyh). cbv zeta.
  pose proof (percent_nonneg _ _ HW Hx) as Px.
  pose proof (percent_nonneg _ _ HH Hy) as Py.
  pose proof (percent_sum_le _ _ _ HW Hxw) as Sx.
  pose proof (percent_sum_le _ _ _ HH Hyh) as Sy.
  faceCrop_cases a; intros Lw Lh;
    destruct (clamp_contains _ _ _ Px Sx Lw) as [X1 X2];
    destruct (clamp_contains _ _ _ Py Sy Lh) as [Y1 Y2];
    auto.
Qed.

Lemma faceCrop_contains_face_witness :
  0 < 1000 /\ 0 < 800 /\ inBounds 1000 800 (Box.mk 300 200 250 300) /\
  Crop.x (faceCrop (ratio Wide) 1000 800 [Box.mk 300 200 250 300])
  <= 300 / 1000 * 100.
Proof.
  assert (B : inBounds 1000 800 (Box.mk 300 200 250 300))
    by (unfold inBounds; cbn; repeat split; discriminate).
  split; [ reflexivity | ]. split; [ reflexivity | ]. split; [ exact B | ].
  apply (faceCrop_contains_face (ratio Wide) 1000 800
           (Box.mk 300 200 250 300) [] eq_refl eq_refl B);
    vm_compute; discriminate.
Defined.

(** For the 1:1 ratio the condition always holds: a face box inside the
    image lies inside the face-path rectangle. *)
Theorem faceCrop_square_contains_face (W H : Q) (face : Box.t)
  (rest : list Box.t) :
  0 < W -> 0 < H -> inBounds W H face ->
  let c := faceCrop (ratio Square) W H (face :: rest) in
  let faceX := Box.x face / W * 100 in
  let faceY := Box.y face / H * 100 in
  let faceWidth := Box.width face / W * 100 in
  let faceHeight := Box.height face / H * 100 in
  Crop.x c <= faceX /\ faceX + faceWidth <= Crop.x c + Crop.width c /\
  Crop.y c <= faceY /\ faceY + faceHeight <= Crop.y c + Crop.height c.
Proof.
  intros HW HH (Hx & Hy & Hw & Hh & Hxw & Hyh). cbv zeta.
  pose proof (percent_nonneg _ _ HW Hx) as Px.
  pose proof (percent_nonneg _ _ HH Hy) as Py.
  pose proof (percent_nonneg _ _ HW Hw) as Pw.
  pose proof (percent_nonneg _ _ HH Hh) as Ph.
  pose proof (percent_sum_le _ _ _ HW Hxw) as Sx.
  pose proof (percent_sum_le _ _ _ HH Hyh) as Sy.
  unfold faceCrop. cbn [ratio]. change (Qeq_bool 1 1) with true.
  cbn [Crop.x Crop.y Crop.width Crop.height].
  set (fw := Box.width face / W * 100) in *.
  set (fh := Box.height face / H * 100) in *.
  pose proof (Q.le_max_l fw fh) as Ml.
  pose proof (Q.le_max_r fw fh) as Mr.
  assert (Lw : fw <= Qmax fw fh * 1.5) by lra.
  assert (Lh : fh <= Qmax fw fh * 1.5) by lra.
  destruct (clamp_contains _ _ _ Px Sx Lw) as [X1 X2].
  destruct (clamp_contains _ _ _ Py Sy Lh) as [Y1 Y2].
  auto.
Qed.

Lemma faceCrop_square_contains_face_witness :
  0 < 1000 /\ 0 < 800 /\ inBounds 1000 800 (Box.mk 300 200 250 300) /\
  Crop.x (faceCrop (ratio Square) 1000 800 [Box.mk 300 200 250 300])
  <= 300 / 1000 * 100.
Proof.
  assert (B : inBounds 1000 800 (Box.mk 300 200 250 300))
    by (unfold inBounds; cbn; repeat split; discriminate).
  split; [ reflexivity | ]. split; [ reflexivity | ]. split; [ exact B | ].
  apply (faceCrop_square_contains_face 1000 800
           (Box.mk 300 200 250 300) [] eq_refl eq_refl B).
Defined.

(** When the face's centre is at least half the rectangle away from every
    edge of the image, the face-path rectangle is centred on the face. *)
Theorem faceCrop_centred (a W H : Q) (face : Box.t) (rest : list Box.t) :
  let c := faceCrop a W H (face :: rest) in
  let centreX := Box.x face / W * 100 + (Box.width face / W * 100) / 2 in
  let centreY := Box.y face / H * 100 + (Box.height face / H * 100) / 2 in
  Crop.width c / 2 <= centreX -> centreX <= 100 - Crop.width c / 2 ->
  Crop.height c / 2 <= centreY -> centreY <= 100 - Crop.height c / 2 ->
  Crop.x c + Crop.width c / 2 == centreX /\
  Crop.y c + Crop.height c / 2 == centreY.
Proof.
  cbv zeta.
  set (fx := Box.x face / W * 100). set (fy := Box.y face / H * 100).
  set (fw := Box.width face / W * 100). set (fh := Box.height face / H * 100).
  faceCrop_cases a; fold fx fy fw fh; intros X1 X2 Y1 Y2;
    (split; [ rewrite clamp_inactive | rewrite clamp_inactive ]);
    fractions; lra.
Qed.

Lemma faceCrop_centred_witness :
  Crop.x (faceCrop (ratio Square) 1000 1000 [Box.mk 400 300 100 200])
  + Crop.width (faceCrop (ratio Square) 1000 1000 [Box.mk 400 300 100 200]) / 2
  == 400 / 1000 * 100 + (100 / 1000 * 100) / 2.
Proof.
  apply (faceCrop_centred (ratio Square) 1000 1000 (Box.mk 400 300 100 200) []);
    vm_compute; discriminate.
Defined.

(** The face-path rectangle depends on the image and the face box only
    through their proportions: an image and a face box both scaled by the
    same positive factor give the same rectangle. *)
Theorem faceCrop_scale_invariant (k a W H : Q) (face : Box.t)
  (rest : list Box.t) :
  0 < k -> 0 < W -> 0 < H ->
  Crop.eq
    (faceCrop a (k * W) (k * H)
       (Box.mk (k * Box.x face) (k * Box.y face)
               (k * Box.width face) (k * Box.height face) :: rest))
    (faceCrop a W H (face :: rest)).
Proof.
  intros Hk HW HH.
  assert (Nk : ~ k == 0) by lra.
  assert (NW : ~ W == 0) by lra.
  assert (NH : ~ H == 0) by lra.
  assert (Ex : k * Box.x face / (k * W) * 100 == Box.x face / W * 100)
    by (field; auto).
  assert (Ey : k * Box.y face / (k * H) * 100 == Box.y face / H * 100)
    by (field; auto).
  assert (Ew : k * Box.width face / (k * W) * 100 == Box.width face / W * 100)
    by (field; auto).
  assert (Eh : k * Box.height face / (k * H) * 100 == Box.height face / H * 100)
    by (field; auto).
  faceCrop_cases a; cbn [Box.x Box.y Box.width Box.height];
    unfold Crop.eq; cbn [Crop.unit Crop.x Crop.y Crop.width Crop.height];
    rewrite Ex, Ey, Ew, Eh; repeat split; reflexivity.
Qed.

Lemma faceCrop_scale_invariant_witness :
  0 < 3 /\ 0 < 1000 /\ 0 < 800 /\
  Crop.eq
    (faceCrop (ratio Portrait) (3 * 1000) (3 * 800)
       [Box.mk (3 * 300) (3 * 200) (3 * 250) (3 * 300)])
    (faceCrop (ratio Portrait) 1000 800 [Box.mk 300 200 250 300]).
Proof.
  do 3 (split; [ reflexivity | ]).
  apply (faceCrop_scale_invariant 3 (ratio Portrait) 1000 800
           (Box.mk 300 200 250 300) []); reflexivity.
Defined.

(** ** The ratio of the face-path rectangle *)

(** The sizes of lines 121-129 stand in the chosen ratio as percentages.  On
    the image, the rectangle around a face of positive size therefore has the
    chosen ratio exactly when the image is square; on every other image the
    ratio is left to [makeAspectCrop]. *)
Theorem faceCrop_ratio_of_percentages (a : AspectChoice) (W H : Q)
  (face : Box.t) (rest : list Box.t) :
  0 < W -> 0 < H -> 0 < Box.width face -> 0 < Box.height face ->
  let c := faceCrop (ratio a) W H (face :: rest) in
  Crop.width c == ratio a * Crop.height c /\
  (hasAspect (ratio a) W H c <-> W == H).
Proof.
  intros HW HH Hw Hh. cbv zeta.
  assert (Pw : 0 < Box.width face / W * 100).
  { assert (0 < Box.width face / W) by (apply Qlt_shift_div_l; lra). lra. }
  assert (Ph : 0 < Box.height face / H * 100).
  { assert (0 < Box.height face / H) by (apply Qlt_shift_div_l; lra). lra. }
  set (c := faceCrop (ratio a) W H (face :: rest)).
  assert (Unit : Crop.unit c = Percent) by apply faceCrop_unit.
  assert (Size : Crop.width c == ratio a * Crop.height c /\ 0 < Crop.height c).
  { subst c. set (fw := Box.width face / W * 100) in *.
    set (fh := Box.height face / H * 100) in *.
    pose proof (Q.le_max_l fw fh) as Ml.
    destruct a; unfold faceCrop; fold fw; fold fh; cbn [ratio];
      [ change (Qeq_bool 1 1) with true
      | change (Qeq_bool (4 / 5) 1) with false;
        change (Qeq_bool (4 / 5) (4 / 5)) with true
      | change (Qeq_bool (16 / 9) 1) with false;
        change (Qeq_bool (16 / 9) (4 / 5)) with false;
        change (Qeq_bool (16 / 9) (16 / 9)) with true ];
      cbn [Crop.width Crop.height];
      change (4 / 5) with (4 # 5); fractions; split; lra. }
  destruct Size as [Ew Hpos]. split; [ exact Ew | ].
  unfold hasAspect, pixelWidth, pixelHeight. rewrite Unit, Ew.
  pose proof (ratio_pos a) as Ha.
  set (r := ratio a) in *. set (h := Crop.height c) in *.
  assert (Np : ~ r * h == 0).
  { intros E. apply Qmult_integral in E. destruct E as [E | E]; lra. }
  split.
  - intros E.
    assert (E' : (r * h) * W == (r * h) * H).
    { assert (X : (r * h) * W == 100 * (r * h * W / 100)) by field.
      assert (Y : (r * h) * H == 100 * (r * (h * H / 100))) by field.
      rewrite X, Y, E. reflexivity. }
    apply (Qmult_inj_l W H (r * h) Np). exact E'.
  - intros E. rewrite E. field.
Qed.

Lemma faceCrop_ratio_of_percentages_witness :
  Crop.width (faceCrop (ratio Wide) 1000 800 [Box.mk 300 200 250 300])
  == ratio Wide
     * Crop.height (faceCrop (ratio Wide) 1000 800 [Box.mk 300 200 250 300]) /\
  (hasAspect (ratio Wide) 1000 800
     (faceCrop (ratio Wide) 1000 800 [Box.mk 300 200 250 300])
   <-> 1000 == 800).
Proof.
  apply (faceCrop_ratio_of_percentages Wide 1000 800
           (Box.mk 300 200 250 300) []); reflexivity.
Defined.

(** ** Export ([downloadCroppedImage], lines 177-211) *)

(** The export draws exactly when there is an image element, a committed
    crop and a drawing context; in every other case it does nothing. *)
Theorem export_happens_iff (imgRef : option Img.t) (ctx : bool) (st : State) :
  downloadCroppedImage imgRef ctx st = None <->
  imgRef = None \/ completedCrop st = None \/ ctx = false.
Proof.
  unfold downloadCroppedImage.
  destruct imgRef as [img | ], (completedCrop st) as [c | ], ctx; cbn;
    split; intros E; auto; try discriminate E;
    destruct E as [E | [E | E]]; discriminate E.
Qed.

(** A committed crop that lies inside the rendered image is drawn from a
    region that lies inside the file: the export does not read outside the
    natural image. *)
Theorem export_reads_inside_file (img : Img.t) (c : Crop.t) (st : State) :
  0 < Img.width img -> 0 < Img.height img ->
  0 <= Img.naturalWidth img -> 0 <= Img.naturalHeight img ->
  completedCrop st = Some c ->
  0 <= Crop.x c -> 0 <= Crop.y c ->
  Crop.x c + Crop.width c <= Img.width img ->
  Crop.y c + Crop.height c <= Img.height img ->
  exists e,
    downloadCroppedImage (Some img) true st = Some e /\
    0 <= sx (drawn e) /\ 0 <= sy (drawn e) /\
    sx (drawn e) + sWidth (drawn e) <= Img.naturalWidth img /\
    sy (drawn e) + sHeight (drawn e) <= Img.naturalHeight img.
Proof.
  intros HW HH HnW HnH Hc Hx Hy Hxw Hyh.
  unfold downloadCroppedImage. rewrite Hc. cbn [negb].
  eexists. split; [ reflexivity | ].
  cbn [drawn sx sy sWidth sHeight].
  assert (NW : ~ Img.width img == 0) by lra.
  assert (NH : ~ Img.height img == 0) by lra.
  assert (SX : 0 <= Img.naturalWidth img / Img.width img)
    by (apply Qle_shift_div_l; lra).
  assert (SY : 0 <= Img.naturalHeight img / Img.height img)
    by (apply Qle_shift_div_l; lra).
  split; [ apply Qmult_le_0_compat; assumption | ].
  split; [ apply Qmult_le_0_compat; assumption | ].
  split.
  - rewrite <- Qmult_plus_distr_l.
    assert (E : Img.naturalWidth img
                == Img.width img * (Img.naturalWidth img / Img.width img))
      by (field; exact NW).
    rewrite E at 2. apply Qmult_le_compat_r; assumption.
  - rewrite <- Qmult_plus_distr_l.
    assert (E : Img.naturalHeight img
                == Img.height img * (Img.naturalHeight img / Img.height img))
      by (field; exact NH).
    rewrite E at 2. apply Qmult_le_compat_r; assumption.
Qed.

Lemma export_reads_inside_file_witness :
  exists e,
    downloadCroppedImage (Some img900) true
      (onComplete (Crop.mk Px 100 50 640 360) loaded) = Some e /\
    0 <= sx (drawn e) /\ 0 <= sy (drawn e) /\
    sx (drawn e) + sWidth (drawn e) <= Img.naturalWidth img900 /\
    sy (drawn e) + sHeight (drawn e) <= Img.naturalHeight img900.
Proof.
  apply (export_reads_inside_file img900 (Crop.mk Px 100 50 640 360)
           (onComplete (Crop.mk Px 100 50 640 360) loaded));
    solve [ reflexivity | vm_compute; discriminate ].
Defined.

(** For an image rendered at its natural size the region drawn is the
    committed crop itself, onto a canvas of the same size. *)
Theorem export_at_natural_size (img : Img.t) (c : Crop.t) (st : State) :
  0 < Img.width img -> 0 < Img.height img ->
  Img.naturalWidth img == Img.width img ->
  Img.naturalHeight img == Img.height img ->
  completedCrop st = Some c ->
  exists e,
    downloadCroppedImage (Some img) true st = Some e /\
    sx (drawn e) == Crop.x c /\ sy (drawn e) == Crop.y c /\
    sWidth (drawn e) == dWidth (drawn e) /\
    sHeight (drawn e) == dHeight (drawn e) /\
    dWidth (drawn e) == canvasWidth e /\ dHeight (drawn e) == canvasHeight e /\
    canvasWidth e == Crop.width c /\ canvasHeight e == Crop.height c.
Proof.
  intros HW HH EW EH Hc.
  unfold downloadCroppedImage. rewrite Hc. cbn [negb].
  eexists. split; [ reflexivity | ].
  cbn [drawn sx sy sWidth sHeight dWidth dHeight canvasWidth canvasHeight].
  assert (NW : ~ Img.width img == 0) by lra.
  assert (NH : ~ Img.height img == 0) by lra.
  rewrite EW, EH.
  repeat split; try reflexivity; field; assumption.
Qed.

Lemma export_at_natural_size_witness :
  exists e,
    downloadCroppedImage (Some (Img.mk 640 480 640 480)) true
      (onComplete (Crop.mk Px 100 50 300 300) loaded) = Some e /\
    sx (drawn e) == 100 /\ sy (drawn e) == 50 /\
    sWidth (drawn e) == dWidth (drawn e) /\
    sHeight (drawn e) == dHeight (drawn e) /\
    dWidth (drawn e) == canvasWidth e /\ dHeight (drawn e) == canvasHeight e /\
    canvasWidth e == 300 /\ canvasHeight e == 300.
Proof.
  apply (export_at_natural_size (Img.mk 640 480 640 480)
           (Crop.mk Px 100 50 300 300)
           (onComplete (Crop.mk Px 100 50 300 300) loaded));
    reflexivity.
Defined.

(** What the resumed [onImageLoad] leaves alone. *)
Lemma onImageLoad_resume_frame (L : CropLibrary) (k : Suspended.t)
  (d : Detection) (st : State) :
  exists st' c,
    onImageLoad_resume k d st = Return st' /\
    imgSrc st' = imgSrc st /\ aspect st' = aspect st /\
    completedCrop st' = completedCrop st /\
    isDragging st' = isDragging st /\
    isLoading st' = false /\ crop st' = Some c.
Proof.
  destruct (onImageLoad_resume_installs L k d st) as (r & _ & E).
  eexists. eexists. split; [ exact E | ]. repeat split.
Qed.

Lemma downloadCroppedImage_completedCrop (imgRef : option Img.t) (ctx : bool)
  (st st' : State) :
  completedCrop st' = completedCrop st ->
  downloadCroppedImage imgRef ctx st' = downloadCroppedImage imgRef ctx st.
Proof. intros E. unfold downloadCroppedImage. rewrite E. reflexivity. Qed.

(** After cancel nothing can be exported, also once a detection that was in
    flight has settled. *)
Theorem export_after_cancel (L : CropLibrary) (imgRef : option Img.t)
  (ctx : bool) (st : State) :
  downloadCroppedImage imgRef ctx (handleCancel st) = None /\
  (forall (k : Suspended.t) (d : Detection),
      exists st',
        onImageLoad_resume k d (handleCancel st) = Return st' /\
        downloadCroppedImage imgRef ctx st' = None).
Proof.
  assert (N : downloadCroppedImage imgRef ctx (handleCancel st) = None)
    by (destruct imgRef; reflexivity).
  split; [ exact N | ]. intros k d.
  destruct (onImageLoad_resume_frame L k d (handleCancel st))
    as (st' & c & E & _ & _ & Hc & _).
  exists st'. split; [ exact E | ].
  rewrite (downloadCroppedImage_completedCrop imgRef ctx _ _ Hc). exact N.
Qed.

(** ** Sessions without overlap *)

Lemma settled_serve (L : CropLibrary) (st : State) (reqs : list Request)
  (img : Img.t) (d : Detection) :
  settled (mkWorld st None) -> settled (serve (st, reqs) img d None).
Proof.
  intros Hs. unfold serve.
  destruct reqs as [ | [file | k] reqs ]; try exact Hs.
  destruct Hs as (Hl & Hsrc & Hcrop & Ha). cbn [state imgRef] in *.
  assert (Hnone : crop (onReaderLoad file st) = None).
  { destruct (crop st) as [c | ] eqn:Ec.
    - destruct (Hcrop c eq_refl) as (i & Hi). discriminate Hi.
    - unfold onReaderLoad. destruct (File.result file); exact Ec. }
  assert (Hasp : aspect (onReaderLoad file st) = aspect st)
    by (unfold onReaderLoad; destruct (File.result file); reflexivity).
  assert (Hload : isLoading (onReaderLoad file st) = isLoading st)
    by (unfold onReaderLoad; destruct (File.result file); reflexivity).
  destruct (imgSrc (onReaderLoad file st)) eqn:Es.
  - split; [ | split; [ | split ] ]; cbn [state imgRef].
    + rewrite Hload. exact Hl.
    + intros _. split; [ exact Hnone | reflexivity ].
    + intros c Hc. rewrite Hnone in Hc. discriminate Hc.
    + rewrite Hasp. exact Ha.
  - cbn [onImageLoad].
    destruct (onImageLoad_resume_frame L
                (Suspended.mk (Img.width img) (Img.height img)
                   (aspect (onReaderLoad file st)))
                d (setIsLoading true (onReaderLoad file st)))
      as (st' & c & E & Hsrc' & Hasp' & _ & _ & Hl' & Hc').
    rewrite E.
    split; [ | split; [ | split ] ]; cbn [state imgRef].
    + exact Hl'.
    + rewrite Hsrc'. cbn [imgSrc setIsLoading]. rewrite Es.
      intros Hs. discriminate Hs.
    + intros c' _. exists img. reflexivity.
    + rewrite Hasp'. cbn [aspect setIsLoading]. rewrite Hasp. exact Ha.
Qed.

Lemma settled_run (L : CropLibrary) (op : Op) (w : World) :
  settled w -> enabled op w -> settled (run op w).
Proof.
  intros Hs He. destruct w as [st ref].
  pose proof Hs as (Hl & Hsrc & Hcrop & Ha).
  cbn [state imgRef] in *.
  destruct op as [files img d | files img d | | | | a | c | c | ];
    cbn [run enabled state imgRef] in *.
  - destruct He as (Es & _). destruct (Hsrc Es) as (_ & ->).
    destruct (onSelectFile files st) as [st1 reqs] eqn:E.
    assert (st1 = st) as ->.
    { unfold onSelectFile, handleFile in E.
      destruct files as [[ | f fs] | ]; try destruct (isImage f);
        congruence. }
    apply settled_serve. exact Hs.
  - destruct He as (Es & _). destruct (Hsrc Es) as (_ & ->).
    destruct (handleDrop files st) as [st1 reqs] eqn:E.
    assert (st1 = setIsDragging false st) as ->.
    { unfold handleDrop, handleFile in E.
      destruct files as [ | f fs]; try destruct (isImage f); congruence. }
    apply settled_serve. exact Hs.
  - exact Hs.
  - exact Hs.
  - exact Hs.
  - unfold onClickAspect.
    destruct (Qeq_bool (aspect st) (ratio a)); [ exact Hs | ].
    destruct ref as [img | ]; cbn [aspectEffect];
      (split; [ | split; [ | split ] ]);
      cbn [state imgRef isLoading imgSrc crop aspect setAspect setCrop];
      try assumption; try (exists a; reflexivity).
    + intros Es. destruct (Hsrc Es) as (_ & Hn). discriminate Hn.
    + intros c _. exists img. reflexivity.
  - destruct He as (img & Hi & _).
    split; [ | split; [ | split ] ];
      cbn [state imgRef isLoading imgSrc crop aspect onChange setCrop];
      try assumption.
    + intros Es. destruct (Hsrc Es) as (_ & Hn). congruence.
    + intros c' _. exists img. exact Hi.
  - exact Hs.
  - split; [ | split; [ | split ] ]; cbn; try assumption.
    + intros _. split; reflexivity.
    + intros c Hc. discriminate Hc.
Qed.

Lemma reachable_settled_aux (L : CropLibrary) (w : World) :
  reachable w -> settled w.
Proof.
  induction 1 as [ | op w Hr IH He ].
  - split; [ reflexivity | ].
    split; [ intros _; split; reflexivity | ].
    split; [ intros c Hc; discriminate Hc | exists Square; reflexivity ].
  - apply settled_run; assumption.
Qed.

(** In a session whose operations do not overlap, whatever the crop library
    computes: after every operation the loading flag is down; while there is
    no image source there is neither a crop rectangle nor an image element;
    a crop rectangle never exists without an image element; and the ratio is
    one of 1:1, 4:5 and 16:9. *)
Theorem session_is_settled (L : CropLibrary) (w : World) :
  reachable w ->
  isLoading (state w) = false /\
  (imgSrc (state w) = EmptyString ->
   crop (state w) = None /\ imgRef w = None) /\
  (forall c, crop (state w) = Some c -> exists img, imgRef w = Some img) /\
  (exists a, aspect (state w) = ratio a).
Proof. intros Hr. exact (reachable_settled_aux L w Hr). Qed.

Lemma session_is_settled_witness :
  reachable (L := ReactImageCrop.library) wideSession /\
  isLoading (state wideSession) = false /\
  (exists a, aspect (state wideSession) = ratio a).
Proof.
  assert (R : reachable (L := ReactImageCrop.library) wideSession).
  { unfold wideSession. apply reachable_run; [ | exact I ].
    apply reachable_run; [ apply reachable_initial | ].
    split; [ reflexivity | split; reflexivity ]. }
  split; [ exact R | ].
  destruct (session_is_settled ReactImageCrop.library wideSession R)
    as (Hl & _ & _ & Ha).
  split; assumption.
Defined.

(** ** What is rendered *)

Lemma ratio_eq_iff (a b : AspectChoice) :
  Qeq_bool (ratio a) (ratio b) = true <-> a = b.
Proof.
  destruct a, b; split; intros E; try reflexivity; discriminate E.
Qed.

(** While an image is shown in a session without overlap, exactly one of
    the three ratio buttons is highlighted. *)
Theorem one_ratio_button_highlighted (L : CropLibrary) (w : World) :
  reachable w ->
  imgSrc (state w) <> EmptyString ->
  exists a, forall b, highlighted (render (state w)) b = true <-> b = a.
Proof.
  intros Hr Hs.
  destruct (reachable_settled_aux L w Hr) as (_ & _ & _ & a & Ha).
  exists a. intros b. unfold render. cbn [highlighted]. rewrite Ha.
  destruct (imgSrc (state w)); [ contradiction | ].
  cbn [truthyString andb]. rewrite ratio_eq_iff.
  split; intros E; symmetry; exact E.
Qed.

Lemma one_ratio_button_highlighted_witness :
  exists a, forall b,
      highlighted (render (state wideSession)) b = true <-> b = a.
Proof.
  apply (one_ratio_button_highlighted ReactImageCrop.library wideSession).
  - unfold wideSession. apply reachable_run; [ | exact I ].
    apply reachable_run; [ apply reachable_initial | ].
    split; [ reflexivity | split; reflexivity ].
  - intros E. discriminate E.
Defined.

(** The download button is rendered exactly when an image is shown and a
    crop has been committed.  Whenever it is rendered, a click on it, given
    the image element and a drawing context, draws the committed crop; the
    file [cropped-image.jpg] is offered if the canvas yields a blob, and
    nothing is offered if it yields none. *)
Theorem download_button_exports (st : State) :
  (downloadButton (render st) = true <->
   imgSrc st <> EmptyString /\ completedCrop st <> None) /\
  (downloadButton (render st) = true ->
   forall img : Img.t,
   exists e,
     downloadCroppedImage (Some img) true st = Some e /\
     mimeType e = "image/jpeg" /\
     toBlobCallback e true = Some "cropped-image.jpg" /\
     toBlobCallback e false = None).
Proof.
  unfold render, downloadCroppedImage. cbn [downloadButton].
  destruct (imgSrc st), (completedCrop st) as [c | ]; cbn; split;
    try (split; [ intros E; discriminate E | intros [E1 E2]; congruence ]);
    try (intros E; discriminate E).
  - split; [ intros _; split; intros E; discriminate E | reflexivity ].
  - intros _ img. eexists. repeat split.
Qed.

Lemma download_button_exports_witness :
  exists e,
    downloadCroppedImage (Some img200) true
      (onComplete (Crop.mk Px 20 20 100 100) loaded) = Some e /\
    mimeType e = "image/jpeg" /\
    toBlobCallback e true = Some "cropped-image.jpg" /\
    toBlobCallback e false = None.
Proof.
  apply (proj2 (download_button_exports
                  (onComplete (Crop.mk Px 20 20 100 100) loaded))).
  reflexivity.
Defined.

(** Cancel brings back the upload area and nothing else: no ratio buttons,
    no crop area, no loading overlay, no cancel or download button. *)
Theorem cancel_renders_upload_only (st : State) :
  uploadArea (render (handleCancel st)) = true /\
  uploadHighlighted (render (handleCancel st)) = isDragging st /\
  aspectControls (render (handleCancel st)) = false /\
  (forall a, highlighted (render (handleCancel st)) a = false) /\
  cropArea (render (handleCancel st)) = false /\
  loadingOverlay (render (handleCancel st)) = false /\
  cancelButton (render (handleCancel st)) = false /\
  downloadButton (render (handleCancel st)) = false.
Proof. repeat split. Qed.

(** ** A second click on a ratio *)

(** A click on the ratio that is already active changes nothing: the
    rectangle the user has moved since the ratio was chosen is kept. *)
Theorem onClickAspect_again_keeps_crop (L : CropLibrary)
  (mounted mounted' : option Img.t) (a : Q) (percentCrop : Crop.t)
  (st : State) :
  onClickAspect mounted' a (onChange percentCrop (onClickAspect mounted a st))
  = onChange percentCrop (onClickAspect mounted a st).
Proof.
  apply onClickAspect_same.
  unfold onClickAspect. destruct (Qeq_bool (aspect st) a) eqn:E.
  - apply Qeq_bool_iff. exact E.
  - destruct mounted; reflexivity.
Qed.

(** ** Intake ([handleFile], [onSelectFile], [handleDrop], lines 49-91) *)

Lemma prefix_app_iff (p s : string) :
  prefix p s = true <-> exists r, s = (p ++ r)%string.
Proof.
  revert s. induction p as [ | a p IH ]; intros s.
  - split; [ intros _; exists s; reflexivity | intros _; destruct s; reflexivity ].
  - destruct s as [ | b s ]; cbn [prefix].
    + split; [ intros E; discriminate E | intros [r E]; discriminate E ].
    + destruct (Ascii.ascii_dec a b) as [-> | N].
      * rewrite IH. split; intros [r E]; exists r.
        -- cbn. rewrite E. reflexivity.
        -- cbn in E. injection E as E. exact E.
      * split; [ intros E; discriminate E | ].
        intros [r E]. cbn in E. injection E as E1 E2. congruence.
Qed.

(** A file is taken in exactly when its declared type is [image/] followed
    by anything: the subtype is not looked at, and a read is started exactly
    for such a file. *)
Theorem handleFile_reads_iff_image_type (file : File.t) (st : State) :
  (isImage file = true <-> exists subtype, File.type file = ("image/" ++ subtype)%string) /\
  (snd (handleFile file st) = [ReadAsDataURL file] <->
   exists subtype, File.type file = ("image/" ++ subtype)%string) /\
  (snd (handleFile file st) = [] <->
   ~ exists subtype, File.type file = ("image/" ++ subtype)%string) /\
  fst (handleFile file st) = st.
Proof.
  unfold handleFile, isImage.
  pose proof (prefix_app_iff "image/" (File.type file)) as P.
  destruct (prefix "image/" (File.type file)); cbn [fst snd];
    (split; [ exact P | ]); (split; [ | split; [ | reflexivity ] ]).
  - split; [ intros _; apply P; reflexivity | reflexivity ].
  - split; [ intros E; discriminate E | ].
    intros N. exfalso. apply N, P. reflexivity.
  - split; [ intros E; discriminate E | ].
    intros E. apply P in E. discriminate E.
  - split; [ intros _ E; apply P in E; discriminate E | reflexivity ].
Qed.

(** An image file that is picked or dropped and whose read gives a source
    ends up shown: once its detection has settled, in whatever way, the
    source is the one read, the image element is mounted, a crop rectangle is
    set and the loading overlay is gone; the ratio is as before. *)
Theorem taken_image_is_shown (L : CropLibrary) (file : File.t)
  (rest : list File.t) (img : Img.t) (d : Detection) (w : World)
  (url : string) (viaDrop : bool) :
  isImage file = true -> File.result file = Some url -> url <> EmptyString ->
  let w' := run (if viaDrop then DropFiles (file :: rest) img d
                 else Pick (Some (file :: rest)) img d) w in
  imgSrc (state w') = url /\
  imgRef w' = Some img /\
  (exists c, crop (state w') = Some c) /\
  isLoading (state w') = false /\
  aspect (state w') = aspect (state w) /\
  cropArea (render (state w')) = true /\
  loadingOverlay (render (state w')) = false.
Proof.
  intros Hi Hr Hu. cbv zeta.
  assert (S : forall st,
             serve (st, [ReadAsDataURL file]) img d (imgRef w)
             = match onImageLoad_resume
                       (Suspended.mk (Img.width img) (Img.height img) (aspect st))
                       d (setIsLoading true (setImgSrc url st)) with
               | Return st' => mkWorld st' (Some img)
               | Throw _ => mkWorld (setIsLoading true (setImgSrc url st)) (Some img)
               end).
  { intros st. unfold serve, onReaderLoad. rewrite Hr.
    cbn [imgSrc setImgSrc]. destruct url; [ contradiction | ]. reflexivity. }
  assert (G : forall st,
             aspect st = aspect (state w) ->
             let w' := serve (st, [ReadAsDataURL file]) img d (imgRef w) in
             imgSrc (state w') = url /\
             imgRef w' = Some img /\
             (exists c, crop (state w') = Some c) /\
             isLoading (state w') = false /\
             aspect (state w') = aspect (state w) /\
             cropArea (render (state w')) = true /\
             loadingOverlay (render (state w')) = false).
  { intros st Ha. cbv zeta. rewrite S.
    destruct (onImageLoad_resume_frame L
                (Suspended.mk (Img.width img) (Img.height img) (aspect st))
                d (setIsLoading true (setImgSrc url st)))
      as (st' & c & E & Hsrc & Hasp & Hcc & _ & Hl & Hcrop).
    rewrite E. cbn [state imgRef].
    cbn [imgSrc setIsLoading setImgSrc] in Hsrc.
    split; [ exact Hsrc | ]. split; [ reflexivity | ].
    split; [ exists c; exact Hcrop | ]. split; [ exact Hl | ].
    split; [ rewrite Hasp; exact Ha | ].
    unfold render. cbn [cropArea loadingOverlay]. rewrite Hsrc, Hl.
    destruct url; [ contradiction | ]. split; reflexivity. }
  destruct viaDrop; cbn [run].
  - unfold handleDrop, handleFile. rewrite Hi. apply G; reflexivity.
  - unfold onSelectFile, handleFile. rewrite Hi. apply G; reflexivity.
Qed.

Lemma taken_image_is_shown_witness :
  imgSrc (state (run (L := ReactImageCrop.library)
                   (DropFiles [pngFile; textFile] img200 (Rejected "no model"))
                   (mkWorld initialState None)))
  = "data:image/png;base64,iVBORw0KGgo=".
Proof.
  apply (taken_image_is_shown ReactImageCrop.library pngFile [textFile] img200
           (Rejected "no model") (mkWorld initialState None)
           "data:image/png;base64,iVBORw0KGgo=" true);
    solve [ reflexivity | intros E; discriminate E ].
Defined.

(** An image file whose read gives no source, or an empty one, shows
    nothing: the source is empty, no image element is mounted, no detection
    is started, and the crop rectangle is left as it was. *)
Theorem unread_image_shows_nothing (L : CropLibrary) (file : File.t)
  (rest : list File.t) (img : Img.t) (d : Detection) (w : World) :
  isImage file = true ->
  File.result file = None \/ File.result file = Some EmptyString ->
  run (Pick (Some (file :: rest)) img d) w
  = mkWorld (setImgSrc EmptyString (state w)) None /\
  run (DropFiles (file :: rest) img d) w
  = mkWorld (setImgSrc EmptyString (setIsDragging false (state w))) None /\
  uploadArea (render (state (run (Pick (Some (file :: rest)) img d) w))) = true.
Proof.
  intros Hi Hr. cbn [run]. unfold handleDrop, onSelectFile, handleFile.
  rewrite Hi. unfold serve, onReaderLoad.
  destruct Hr as [-> | ->]; repeat split.
Qed.

Lemma unread_image_shows_nothing_witness :
  run (L := ReactImageCrop.library)
    (Pick (Some [File.mk "image/png" None]) img200 (Resolved []))
    (mkWorld initialState None)
  = mkWorld (setImgSrc EmptyString initialState) None.
Proof.
  apply (unread_image_shows_nothing ReactImageCrop.library
           (File.mk "image/png" None) [] img200 (Resolved [])
           (mkWorld initialState None)).
  - reflexivity.
  - left. reflexivity.
Defined.

(** ** Start-up ([loadFaceDetectionModel], lines 40-47) *)

(** The start-up never throws.  It asks for the face detector first and
    for the landmark network only if the detector was loaded; the failure of
    either load is written to the console once and ends the start-up. *)
Theorem loadFaceDetectionModel_outcomes (settles : Net -> Result unit)
  (log : list Event) :
  let message := "Error loading face detection model:" in
  loadFaceDetectionModel settles log
  = match settles TinyFaceDetector, settles FaceLandmark68Net with
    | Throw e, _ =>
        ((log ++ [LoadFromUri TinyFaceDetector "/models";
                  ConsoleError message e])%list, Return tt)
    | Return _, Throw e =>
        ((log ++ [LoadFromUri TinyFaceDetector "/models";
                  LoadFromUri FaceLandmark68Net "/models";
                  ConsoleError message e])%list, Return tt)
    | Return _, Return u =>
        ((log ++ [LoadFromUri TinyFaceDetector "/models";
                  LoadFromUri FaceLandmark68Net "/models"])%list, Return u)
    end.
Proof.
  cbv zeta.
  unfold loadFaceDetectionModel, tryCatchL, bindL, loadFromUri, consoleError.
  destruct (settles TinyFaceDetector) as [e | []];
    [ | destruct (settles FaceLandmark68Net) as [e | []] ];
    rewrite <- ?app_assoc; reflexivity.
Qed.
